(** * FFBAnalysis: fantasy-football scoring from NFL game logs

    A shallow embedding of [FFBAnalysis.py] (classes [LeagueSettings],
    [PlayerProfile] and [FFBAnalyzer]) and the properties of its scoring
    routine and player registry.

    Conventions of the embedding:
    - Python [str] is [string].  The case functions [upper] and [title]
      are [str.upper] and [str.title] on ASCII text; they leave bytes above
      127 alone, so names and table entries with letters outside ASCII
      (which Python also cases) are outside the model.
    - Python numbers ([int] and [float]) are exact rationals [Q]; rounding of
      binary floating point is outside the model.
    - A pandas [DataFrame] read from a game-log CSV is a list of rows.  The
      four columns the code reads by label (['Name'], ['Season'], ['Week'],
      ['Year']) are typed fields of a row and lie among the first twelve
      columns; the columns from position 12 on ([list(df)[12:]]) are the
      statistical columns, read by label through [stat].
    - A raised exception is a value [Raise e]; a method of [FFBAnalyzer]
      returns its outcome together with the object as the call left it, so
      that what was assigned before an exception stays assigned. *)

From Stdlib Require Import List String Ascii ZArith QArith Lia Sorted Bool.
Import ListNotations.

Local Open Scope string_scope.

(** ** Exceptions and results *)

Inductive exception : Type :=
| ValueError_unpack          (* not enough values to unpack (expected 2, got 1) *)
| ValueError_float           (* could not convert string to float *)
| NameError_not_loaded       (* raise NameError('NFL data has not been loaded yet, ...') *)
| NameError_undefined (name : string)      (* name '...' is not defined *)
| AttributeError (attribute : string)      (* object has no attribute '...' *)
| TypeError_missing (argument : string)    (* missing 1 required positional argument *)
| TypeError_not_iterable                   (* 'NoneType' object is not iterable *)
| UnboundLocalError (variable : string)    (* local variable referenced before assignment *)
| FileNotFoundError (path : string).

Inductive result (A : Type) : Type :=
| Ok (a : A)
| Raise (e : exception).

Arguments Ok {A} a.
Arguments Raise {A} e.

Definition bind {A B : Type} (m : result A) (k : A -> result B) : result B :=
  match m with
  | Ok a => k a
  | Raise e => Raise e
  end.

Notation "x <- m ;; k" := (bind m (fun x => k))
  (at level 61, m at next level, right associativity).
Notation "' p <- m ;; k" := (bind m (fun p => k))
  (at level 61, p pattern, m at next level, right associativity).

(** ** The string methods the code calls *)

Definition is_lower (c : ascii) : bool :=
  (97 <=? nat_of_ascii c)%nat && (nat_of_ascii c <=? 122)%nat.

Definition is_upper (c : ascii) : bool :=
  (65 <=? nat_of_ascii c)%nat && (nat_of_ascii c <=? 90)%nat.

Definition to_upper (c : ascii) : ascii :=
  if is_lower c then ascii_of_nat (nat_of_ascii c - 32) else c.

Definition to_lower (c : ascii) : ascii :=
  if is_upper c then ascii_of_nat (nat_of_ascii c + 32) else c.

(** [s.upper()] *)
Fixpoint upper (s : string) : string :=
  match s with
  | EmptyString => EmptyString
  | String c s' => String (to_upper c) (upper s')
  end.

(** [s.title()]: a cased character is upper-cased when the character before
    it is not cased, and lower-cased otherwise. *)
Fixpoint title_from (previous_is_cased : bool) (s : string) : string :=
  match s with
  | EmptyString => EmptyString
  | String c s' =>
      String (if previous_is_cased then to_lower c else to_upper c)
             (title_from (is_lower c || is_upper c) s')
  end.

Definition title (s : string) : string := title_from false s.

(** [s.replace(old, new)] for one-character [old] and [new]. *)
Fixpoint replace_char (old new : ascii) (s : string) : string :=
  match s with
  | EmptyString => EmptyString
  | String c s' =>
      String (if Ascii.eqb c old then new else c) (replace_char old new s')
  end.

(** [s.split(' ', maxsplit=1)]: cut at the first space, if there is one. *)
Fixpoint cut_at_space (s : string) : option (string * string) :=
  match s with
  | EmptyString => None
  | String c s' =>
      if Ascii.eqb c " "%char then Some (EmptyString, s')
      else match cut_at_space s' with
           | Some (a, b) => Some (String c a, b)
           | None => None
           end
  end.

Definition split_maxsplit1 (s : string) : list string :=
  match cut_at_space s with
  | Some (a, b) => [a; b]
  | None => [s]
  end.

(** [first_name, last_name = parts]: unpacking into two targets. *)
Definition unpack2 (parts : list string) : result (string * string) :=
  match parts with
  | [a; b] => Ok (a, b)
  | _ => Raise ValueError_unpack
  end.

(** [os.path.join(filepath, filename)] for a relative [filename]. *)
Fixpoint ends_with_slash (s : string) : bool :=
  match s with
  | EmptyString => false
  | String c EmptyString => Ascii.eqb c "/"%char
  | String _ s' => ends_with_slash s'
  end.

Definition path_join (filepath filename : string) : string :=
  if String.eqb filepath "" then filename
  else if ends_with_slash filepath then filepath ++ filename
  else filepath ++ "/" ++ filename.

(** ** [class LeagueSettings] *)

(** The scoring loop reads a settings object through
    [league_settings.__dict__.items()], so the object is modelled by its
    attribute dictionary, in insertion order. *)
Definition LeagueSettings : Type := list (string * Q).

(** [LeagueSettings.__init__]: the Yahoo default scoring settings. *)
Definition LeagueSettings_init : LeagueSettings :=
  [ ("passing_yards", 0.04%Q);
    ("passing_tds", 4%Q);
    ("interceptions", (-1)%Q);
    ("rushing_yards", 0.1%Q);
    ("rushing_tds", 6%Q);
    ("receptions", 0.5%Q);
    ("receiving_yards", 0.1%Q);
    ("receiving_tds", 6%Q);
    ("two_pt_conversions", 2%Q);
    ("fumbles_lost", (-2)%Q);
    ("offensive_fumble_return_tds", 6%Q);
    ("yards_40_plus", 0%Q);
    ("tds_40_plus", 0%Q);
    ("fg_20", 3%Q);
    ("fg_30", 3%Q);
    ("fg_40", 3%Q);
    ("fg_50", 4%Q);
    ("fg_50_plus", 5%Q);
    ("extra_point", 1%Q) ].

(** The category a settings attribute stands for: the attribute name with
    its underscores turned into spaces, as the scoring loop does with
    [key.replace('_', ' ')]. *)
Definition category (key : string) : string := replace_char "_"%char " "%char key.

Definition categories (league_settings : LeagueSettings) : list (string * Q) :=
  map (fun kv => (category (fst kv), snd kv)) league_settings.

(** ** Stat tables *)

(** A cell of a statistical column: a number, or a string as [read_csv]
    leaves it in a column that holds the "no data" mark ['--']. *)
Inductive cell : Type :=
| Num (q : Q)
| Str (s : string).

Record Row : Type := mkRow {
  Name : string;
  Season : string;
  Week : Z;
  Year : Z;
  stat : string -> cell
}.

Record DataFrame : Type := mkDataFrame {
  stat_columns : list string;      (* list(df)[12:] *)
  rows : list Row
}.

(** [np.unique] on a column of years: the sorted distinct values. *)
Fixpoint insert_unique (y : Z) (l : list Z) : list Z :=
  match l with
  | [] => [y]
  | x :: l' =>
      if (y <? x)%Z then y :: l
      else if (y =? x)%Z then l
      else x :: insert_unique y l'
  end.

Definition np_unique (l : list Z) : list Z := fold_right insert_unique [] l.

(** Label lookup in a [Series]; [None] stands for [KeyError]. *)
Fixpoint Series_get (key : string) (s : list (string * Q)) : option Q :=
  match s with
  | [] => None
  | (k, v) :: s' => if String.eqb k key then Some v else Series_get key s'
  end.

Definition Qsum (xs : list Q) : Q := fold_left Qplus xs 0%Q.

(** [DataFrame.sum()] of a frame of floats held column by column. *)
Definition DataFrame_sum (df : list (string * list Q)) : list (string * Q) :=
  map (fun cx => (fst cx, Qsum (snd cx))) df.

Fixpoint mapM {A B : Type} (f : A -> result B) (l : list A) : result (list B) :=
  match l with
  | [] => Ok []
  | a :: l' => b <- f a ;; bs <- mapM f l' ;; Ok (b :: bs)
  end.

(** ** [class PlayerProfile] *)

(** The frame [pd.DataFrame({'years': years, 'points': points_per_year})]. *)
Record PointSeries : Type := mkPointSeries {
  years : list Z;
  points : list Q
}.

(** [player_id], [current_status], [years_played], [number] and [position]
    are set to [None] by the constructor and never touched again; they are
    left out. *)
Record PlayerProfile : Type := mkPlayerProfile {
  name : string;
  league_points : option PointSeries
}.

Definition PlayerProfile_init (name : string) : PlayerProfile :=
  {| name := name; league_points := None |}.

Definition exception_cols : list string :=
  ["Longest Reception"; "Longest Rushing Run"].

(** [name_combo.upper() in df_single['Name'].str.upper().values] *)
Definition name_check (name_combo : string) (df_single : DataFrame) : bool :=
  existsb (fun r => String.eqb (upper (Name r)) (upper name_combo)) (rows df_single).

(** The loop [for df_single in df_list: ... if name_check: break].  The
    third argument is the loop variable as the iterations so far left it
    ([None]: not bound yet); when the list runs out without a [break] the
    variable keeps the last table. *)
Fixpoint for_df_single (name_combo : string) (df_list : list DataFrame)
    (df_single : option DataFrame) : option DataFrame :=
  match df_list with
  | [] => df_single
  | d :: df_list' =>
      if name_check name_combo d then Some d
      else for_df_single name_combo df_list' (Some d)
  end.

(** The row mask [check_bool]. *)
Definition check_bool (name_combo : string)
    (include_post_season remove_week17 : bool) (r : Row) : bool :=
  let check1 := String.eqb (upper (Name r)) (upper name_combo) in
  let check2 := String.eqb (Season r) "Regular Season" in
  let check3 := String.eqb (Season r) "Postseason" in
  let check4 := negb (Week r =? 17)%Z in
  let check_bool := check1 in
  let check_bool :=
    if include_post_season then check_bool && (check2 || check3)
    else check_bool && check2 in
  if remove_week17 then check_bool && check4 else check_bool.

(** The "no data" mark of the game logs. *)
Definition is_no_data (c : cell) : bool :=
  match c with
  | Str s => String.eqb s "--"
  | Num _ => false
  end.

(** [df.replace('--', 0)] on one cell. *)
Definition replace_no_data (c : cell) : cell :=
  match c with
  | Str s => if String.eqb s "--" then Num 0%Q else c
  | Num _ => c
  end.

Definition replace_row (r : Row) : Row :=
  {| Name := Name r; Season := Season r; Week := Week r; Year := Year r;
     stat := fun col => replace_no_data (stat r col) |}.

(** [df_player]: the rows under the mask, with ['--'] replaced by [0]. *)
Definition df_player (name_combo : string)
    (include_post_season remove_week17 : bool) (df : DataFrame) : list Row :=
  map replace_row
      (filter (check_bool name_combo include_post_season remove_week17) (rows df)).

(** [drop(labels=exception_cols, axis='columns', errors='ignore')] on the
    statistical columns. *)
Definition drop_exception_cols (cols : list string) : list string :=
  filter (fun col => negb (existsb (String.eqb col) exception_cols)) cols.

(** The scoring loop over [league_settings.__dict__.items()]; a [KeyError]
    of the lookup skips the attribute. *)
Definition score (player_year_stats : list (string * Q))
    (league_settings : LeagueSettings) : Q :=
  fold_left
    (fun points kv =>
       let new_key := title (replace_char "_"%char " "%char (fst kv)) in
       match Series_get new_key player_year_stats with
       | Some total => (points + total * snd kv)%Q
       | None => points
       end)
    league_settings 0%Q.

(** ** [class FFBAnalyzer] *)

(** An instance attribute that the constructor may not have created. *)
Inductive attribute (A : Type) : Type :=
| Unset                      (* no such attribute on the object *)
| Bound (v : option A).      (* bound; [None] is Python's [None] *)

Arguments Unset {A}.
Arguments Bound {A} v.

(** An entry of [players] is a profile or, as far as the types of the
    code go, the [None] a method call returns. *)
Record FFBAnalyzer : Type := mkFFBAnalyzer {
  players : list (option PlayerProfile);
  league_settings : LeagueSettings;
  df_dline : option DataFrame;
  df_oline : option DataFrame;
  df_k : option DataFrame;
  df_p : option DataFrame;
  df_qb : option DataFrame;
  df_rb : option DataFrame;
  df_wr : option DataFrame;
  dl_list : attribute (list DataFrame)
}.

Definition set_players (v : list (option PlayerProfile)) (self : FFBAnalyzer) :=
  mkFFBAnalyzer v (league_settings self) (df_dline self) (df_oline self)
    (df_k self) (df_p self) (df_qb self) (df_rb self) (df_wr self) (dl_list self).
Definition set_league_settings (v : LeagueSettings) (self : FFBAnalyzer) :=
  mkFFBAnalyzer (players self) v (df_dline self) (df_oline self)
    (df_k self) (df_p self) (df_qb self) (df_rb self) (df_wr self) (dl_list self).
Definition set_df_dline (v : DataFrame) (self : FFBAnalyzer) :=
  mkFFBAnalyzer (players self) (league_settings self) (Some v) (df_oline self)
    (df_k self) (df_p self) (df_qb self) (df_rb self) (df_wr self) (dl_list self).
Definition set_df_oline (v : DataFrame) (self : FFBAnalyzer) :=
  mkFFBAnalyzer (players self) (league_settings self) (df_dline self) (Some v)
    (df_k self) (df_p self) (df_qb self) (df_rb self) (df_wr self) (dl_list self).
Definition set_df_k (v : DataFrame) (self : FFBAnalyzer) :=
  mkFFBAnalyzer (players self) (league_settings self) (df_dline self) (df_oline self)
    (Some v) (df_p self) (df_qb self) (df_rb self) (df_wr self) (dl_list self).
Definition set_df_p (v : DataFrame) (self : FFBAnalyzer) :=
  mkFFBAnalyzer (players self) (league_settings self) (df_dline self) (df_oline self)
    (df_k self) (Some v) (df_qb self) (df_rb self) (df_wr self) (dl_list self).
Definition set_df_qb (v : DataFrame) (self : FFBAnalyzer) :=
  mkFFBAnalyzer (players self) (league_settings self) (df_dline self) (df_oline self)
    (df_k self) (df_p self) (Some v) (df_rb self) (df_wr self) (dl_list self).
Definition set_df_rb (v : DataFrame) (self : FFBAnalyzer) :=
  mkFFBAnalyzer (players self) (league_settings self) (df_dline self) (df_oline self)
    (df_k self) (df_p self) (df_qb self) (Some v) (df_wr self) (dl_list self).
Definition set_df_wr (v : DataFrame) (self : FFBAnalyzer) :=
  mkFFBAnalyzer (players self) (league_settings self) (df_dline self) (df_oline self)
    (df_k self) (df_p self) (df_qb self) (df_rb self) (Some v) (dl_list self).
Definition set_dl_list (v : list DataFrame) (self : FFBAnalyzer) :=
  mkFFBAnalyzer (players self) (league_settings self) (df_dline self) (df_oline self)
    (df_k self) (df_p self) (df_qb self) (df_rb self) (df_wr self) (Bound (Some v)).

(** A method: the outcome of the call and [self] as the call left it. *)
Definition method (A : Type) : Type := FFBAnalyzer -> result A * FFBAnalyzer.

Definition ret {A : Type} (a : A) : method A := fun self => (Ok a, self).

Definition raise {A : Type} (e : exception) : method A := fun self => (Raise e, self).

Definition then_ {A B : Type} (m : method A) (k : A -> method B) : method B :=
  fun self =>
    match m self with
    | (Ok a, self') => k a self'
    | (Raise e, self') => (Raise e, self')
    end.

(** An expression that reads [self] and changes nothing. *)
Definition eval {A : Type} (f : FFBAnalyzer -> result A) : method A :=
  fun self => (f self, self).

(** An assignment to an attribute of [self]. *)
Definition assign (f : FFBAnalyzer -> FFBAnalyzer) : method unit :=
  fun self => (Ok tt, f self).

Notation "x <~ m ;; k" := (then_ m (fun x => k))
  (at level 61, m at next level, right associativity).
Notation "m ;;; k" := (then_ m (fun _ => k))
  (at level 61, right associativity).

Definition DLINE_FILENAME := "Game_Logs_Defensive_Lineman.csv".
Definition OLINE_FILENAME := "Game_Logs_Offensive_Line.csv".
Definition KICKERS_FILENAME := "Game_Logs_Kickers.csv".
Definition PUNTERS_FILENAME := "Game_Logs_Punters.csv".
Definition QUARTERBACKS_FILENAME := "Game_Logs_Quarterback.csv".
Definition RUNNINGBACKS_FILENAME := "Game_Logs_Runningback.csv".
Definition WIDE_RECEIVERS_FILENAME := "Game_Logs_Wide_Receiver_and_Tight_End.csv".


Section Program.

(** [float(s)] on a string cell, as [astype(float)] applies it; [None]
    stands for [ValueError]. *)
Variable float_of_str : string -> option Q.

(** [pd.read_csv(path)]: the table stored under a path, if there is one. *)
Variable read_csv : string -> option DataFrame.

Definition to_float (c : cell) : result Q :=
  match c with
  | Num q => Ok q
  | Str s =>
      match float_of_str s with
      | Some q => Ok q
      | None => Raise ValueError_float
      end
  end.

(** [df_player_year.astype(float)], column by column. *)
Definition astype_float (cols : list string) (rs : list Row)
  : result (list (string * list Q)) :=
  mapM (fun col => xs <- mapM (fun r => to_float (stat r col)) rs ;; Ok (col, xs))
       cols.

(** The body of [for year in years] up to [player_year_stats]. *)
Definition player_year_stats (cols : list string) (df_player : list Row)
    (year : Z) : result (list (string * Q)) :=
  let df_player_year := filter (fun r => (Year r =? year)%Z) df_player in
  let cols := drop_exception_cols cols in
  df_player_year <- astype_float cols df_player_year ;;
  Ok (DataFrame_sum df_player_year).

(** The loop [for year in years], appending to [points_per_year]. *)
Fixpoint for_year (cols : list string) (df_player : list Row)
    (league_settings : LeagueSettings) (years : list Z)
    (points_per_year : list Q) : result (list Q) :=
  match years with
  | [] => Ok points_per_year
  | year :: years' =>
      stats <- player_year_stats cols df_player year ;;
      let points := score stats league_settings in
      for_year cols df_player league_settings years' (points_per_year ++ [points])
  end.

(** [PlayerProfile.CalculatePlayerPoints].  The method returns [None] and
    stores the series in [self.league_points]; the result here is [self]
    after the call. *)
Definition CalculatePlayerPoints (self : PlayerProfile)
    (df_list : list DataFrame) (league_settings : LeagueSettings)
    (include_post_season remove_week17 : bool) : result PlayerProfile :=
  '(first_name, last_name) <- unpack2 (split_maxsplit1 (name self)) ;;
  let name_combo := title last_name ++ ", " ++ title first_name in
  match for_df_single name_combo df_list None with
  | None => Raise (UnboundLocalError "df_single")
  | Some df =>
      let df_player := df_player name_combo include_post_season remove_week17 df in
      let years := np_unique (map Year df_player) in
      points_per_year <-
        for_year (stat_columns df) df_player league_settings years [] ;;
      Ok {| name := name self;
            league_points := Some {| years := years; points := points_per_year |} |}
  end.

(** A call [player.CalculatePlayerPoints(df_list)] or
    [player.CalculatePlayerPoints(df_list, league_settings=...)].  The
    parameter [league_settings] has no default: a call that leaves it out
    raises [TypeError] before the body runs.  [df_list] is [None] when the
    caller passes Python's [None]. *)
Definition call_CalculatePlayerPoints (player : PlayerProfile)
    (df_list : option (list DataFrame))
    (league_settings : option LeagueSettings) : result PlayerProfile :=
  match league_settings with
  | None => Raise (TypeError_missing "league_settings")
  | Some league_settings =>
      match df_list with
      | Some df_list =>
          CalculatePlayerPoints player df_list league_settings false true
      | None =>
          _ <- unpack2 (split_maxsplit1 (name player)) ;;
          Raise TypeError_not_iterable
      end
  end.

Definition pd_read_csv (path : string) : method DataFrame :=
  eval (fun _ => match read_csv path with
                 | Some df => Ok df
                 | None => Raise (FileNotFoundError path)
                 end).

(** [self.dl_list] *)
Definition self_dl_list : method (option (list DataFrame)) :=
  eval (fun self => match dl_list self with
                    | Unset => Raise (AttributeError "dl_list")
                    | Bound v => Ok v
                    end).

(** [FFBAnalyzer.LoadNflData] *)
Definition LoadNflData (filepath : string) : method unit :=
  let dline_path := path_join filepath DLINE_FILENAME in
  let oline_path := path_join filepath OLINE_FILENAME in
  let kickers_path := path_join filepath KICKERS_FILENAME in
  let punters_path := path_join filepath PUNTERS_FILENAME in
  let qb_path := path_join filepath QUARTERBACKS_FILENAME in
  let rb_path := path_join filepath RUNNINGBACKS_FILENAME in
  let wr_path := path_join filepath WIDE_RECEIVERS_FILENAME in
  dline <~ pd_read_csv dline_path ;; assign (set_df_dline dline) ;;;
  oline <~ pd_read_csv oline_path ;; assign (set_df_oline oline) ;;;
  k <~ pd_read_csv kickers_path ;; assign (set_df_k k) ;;;
  p <~ pd_read_csv punters_path ;; assign (set_df_p p) ;;;
  qb <~ pd_read_csv qb_path ;; assign (set_df_qb qb) ;;;
  rb <~ pd_read_csv rb_path ;; assign (set_df_rb rb) ;;;
  wr <~ pd_read_csv wr_path ;; assign (set_df_wr wr) ;;;
  assign (set_dl_list [k; p; qb; rb; wr; dline; oline]).

(** [FFBAnalyzer.__init__].  [filepath] is [None] by default; the seven
    [df_*] attributes are created, [dl_list] is not. *)
Definition FFBAnalyzer_init (filepath : option string)
    (league_settings : LeagueSettings) : result unit * FFBAnalyzer :=
  let self :=
    {| players := []; league_settings := league_settings;
       df_dline := None; df_oline := None; df_k := None; df_p := None;
       df_qb := None; df_rb := None; df_wr := None;
       dl_list := Unset |} in
  match filepath with
  | Some filepath => LoadNflData filepath self
  | None => (Ok tt, self)
  end.

(** The loop of [UpdatePlayerScores]:
    [players_new = players_new + [player.CalculatePlayerPoints(self.dl_list)]].
    The call passes no [league_settings]; its value is the [None] the
    method returns. *)
Fixpoint for_player_update (todo : list (option PlayerProfile))
    (players_new : list (option PlayerProfile))
  : method (list (option PlayerProfile)) :=
  match todo with
  | [] => ret players_new
  | player :: todo' =>
      match player with
      | None => raise (AttributeError "CalculatePlayerPoints")
      | Some player =>
          df_list <~ self_dl_list ;;
          _ <~ eval (fun _ => call_CalculatePlayerPoints player df_list None) ;;
          for_player_update todo' (players_new ++ [None])
      end
  end.

(** [FFBAnalyzer.UpdatePlayerScores]; [self.players] is always a list, so
    the test [self.players is not None] holds. *)
Definition UpdatePlayerScores : method unit :=
  fun self =>
    (players_new <~ for_player_update (players self) [] ;;
     assign (set_players players_new)) self.

(** [FFBAnalyzer.ChangeLeagueSettings] *)
Definition ChangeLeagueSettings (new_league_settings : LeagueSettings)
  : method unit :=
  assign (set_league_settings new_league_settings) ;;;
  UpdatePlayerScores.

(** [FFBAnalyzer.AddPlayer] *)
Definition AddPlayer (player_name : string) : method PlayerProfile :=
  let player := PlayerProfile_init player_name in
  df_list <~ self_dl_list ;;
  match df_list with
  | None => raise NameError_not_loaded
  | Some df_list =>
      fun self =>
        match CalculatePlayerPoints player df_list (league_settings self)
                                    false true with
        | Raise e => (Raise e, self)
        | Ok player =>
            (Ok player, set_players (players self ++ [Some player]) self)
        end
  end.

(** The names bound at the top level of the module: its imports and its
    three classes. *)
Definition module_globals : list string :=
  ["pd"; "np"; "plt"; "os"; "copy"; "MaxNLocator";
   "LeagueSettings"; "PlayerProfile"; "FFBAnalyzer"].

(** [for x in <name>] for a name that is no parameter and no local of the
    method: it is looked up among the module's globals, none of which is
    a list. *)
Definition iter_global (x : string) : method (list string) :=
  if existsb (String.eqb x) module_globals
  then raise TypeError_not_iterable
  else raise (NameError_undefined x).

Fixpoint for_player_add (todo : list string) : method unit :=
  match todo with
  | [] => ret tt
  | player :: todo' => AddPlayer player ;;; for_player_add todo'
  end.

(** [FFBAnalyzer.AddPlayers]: the loop runs over [players], not over the
    parameter [player_names]. *)
Definition AddPlayers (player_names : list string) : method unit :=
  players <~ iter_global "players" ;;
  for_player_add players.

(** Tables whose summed cells all convert: every cell of the given rows
    in a statistical column outside [exception_cols] is a number or a
    string that [float] accepts. *)
Definition numeric_cell (c : cell) : bool :=
  match to_float c with
  | Ok _ => true
  | Raise _ => false
  end.

Definition numeric_rows (cols : list string) (rs : list Row) : bool :=
  forallb (fun r => forallb (fun col => numeric_cell (stat r col))
                            (drop_exception_cols cols))
          rs.

End Program.

(** ** [FFBAnalyzer.PlotPlayerPoints] *)

(** One call [plt.plot(years, points, ..., label=player.name)]; the marker
    styling is constant and left out. *)
Record Line : Type := mkLine {
  xdata : list Z;
  ydata : list Q;
  label : string
}.

(** What the plotting calls put on the figure that is returned. *)
Record Figure : Type := mkFigure {
  lines : list Line;
  grid : bool;
  xlabel : string;
  ylabel : string;
  plot_title : string;
  legend_loc : string;
  integer_ticks : bool
}.

(** An exception of the registry code, or the [TypeError] of subscripting
    [player.league_points] when it is [None]. *)
Inductive plot_exception : Type :=
| Raised (e : exception)
| TypeError_not_subscriptable.

Inductive outcome (A : Type) : Type :=
| Returns (a : A)
| Raises (e : plot_exception).

Arguments Returns {A} a.
Arguments Raises {A} e.

(** [player.name] for an entry of [players]. *)
Definition entry_name (entry : option PlayerProfile) : result string :=
  match entry with
  | Some player => Ok (name player)
  | None => Raise (AttributeError "name")
  end.

(** The search loop [for player in self.players: if player.name ==
    player_name: break; else: player = None].  The last argument is the
    variable [player] as the iterations so far left it. *)
Fixpoint for_player_search (player_name : string)
    (todo : list (option PlayerProfile)) (player : option PlayerProfile)
  : result (option PlayerProfile) :=
  match todo with
  | [] => Ok player
  | entry :: todo' =>
      name_of_entry <- entry_name entry ;;
      if String.eqb name_of_entry player_name then Ok entry
      else for_player_search player_name todo' None
  end.

Section Plotting.

Variable float_of_str : string -> option Q.
Variable read_csv : string -> option DataFrame.

(** The loop [for player_name in player_names] of [PlotPlayerPoints];
    [drawn] holds the lines plotted so far. *)
Fixpoint for_player_name (player_names : list string) (drawn : list Line)
    (self : FFBAnalyzer) : outcome (list Line) * FFBAnalyzer :=
  match player_names with
  | [] => (Returns drawn, self)
  | player_name :: player_names' =>
      match for_player_search player_name (players self) None with
      | Raise e => (Raises (Raised e), self)
      | Ok found =>
          let '(player, self) :=
            match found with
            | Some player => (Ok player, self)
            | None => AddPlayer float_of_str player_name self
            end in
          match player with
          | Raise e => (Raises (Raised e), self)
          | Ok player =>
              match league_points player with
              | None => (Raises TypeError_not_subscriptable, self)
              | Some series =>
                  for_player_name player_names'
                    (drawn ++ [mkLine (years series) (points series) (name player)])
                    self
              end
          end
      end
  end.

(** [FFBAnalyzer.PlotPlayerPoints]; [player_name_list] is [None] by
    default. *)
Definition PlotPlayerPoints (player_name_list : option (list string))
    (self : FFBAnalyzer) : outcome Figure * FFBAnalyzer :=
  match mapM entry_name (players self) with
  | Raise e => (Raises (Raised e), self)
  | Ok added_player_names =>
      let player_names :=
        match player_name_list with
        | None => added_player_names
        | Some player_name_list => player_name_list
        end in
      match for_player_name player_names [] self with
      | (Returns drawn, self) =>
          (Returns {| lines := drawn; grid := true; xlabel := "Year";
                      ylabel := "Points";
                      plot_title := "Points Vs. Year in NFL";
                      legend_loc := "best"; integer_ticks := true |},
           self)
      | (Raises e, self) => (Raises e, self)
      end
  end.

(** ** Sequences of calls *)

(** A call of a public method on a registry. *)
Inductive call : Type :=
| Call_LoadNflData (filepath : string)
| Call_UpdatePlayerScores
| Call_ChangeLeagueSettings (new_league_settings : LeagueSettings)
| Call_AddPlayer (player_name : string)
| Call_AddPlayers (player_names : list string)
| Call_PlotPlayerPoints (player_name_list : option (list string)).

(** The registry as a call leaves it, whether it returns or raises. *)
Definition after (c : call) (self : FFBAnalyzer) : FFBAnalyzer :=
  match c with
  | Call_LoadNflData filepath => snd (LoadNflData read_csv filepath self)
  | Call_UpdatePlayerScores => snd (UpdatePlayerScores float_of_str self)
  | Call_ChangeLeagueSettings new_league_settings =>
      snd (ChangeLeagueSettings float_of_str new_league_settings self)
  | Call_AddPlayer player_name => snd (AddPlayer float_of_str player_name self)
  | Call_AddPlayers player_names => snd (AddPlayers float_of_str player_names self)
  | Call_PlotPlayerPoints player_name_list =>
      snd (PlotPlayerPoints player_name_list self)
  end.

(** The registries a program can hold: one a constructor call returned,
    after any sequence of method calls. *)
Inductive reachable : FFBAnalyzer -> Prop :=
| reachable_init (filepath : option string) (league_settings : LeagueSettings)
    (self : FFBAnalyzer) :
    FFBAnalyzer_init read_csv filepath league_settings = (Ok tt, self) ->
    reachable self
| reachable_after (c : call) (self : FFBAnalyzer) :
    reachable self -> reachable (after c self).

(** The seven paths [LoadNflData] reads, in the order it reads them. *)
Definition game_log_paths (filepath : string) : list string :=
  map (path_join filepath)
      [DLINE_FILENAME; OLINE_FILENAME; KICKERS_FILENAME; PUNTERS_FILENAME;
       QUARTERBACKS_FILENAME; RUNNINGBACKS_FILENAME; WIDE_RECEIVERS_FILENAME].

End Plotting.

(** An entry of [players] that holds a computed profile: a series with as
    many points as years and strictly ascending years. *)
Definition computed (entry : option PlayerProfile) : Prop :=
  exists player series,
    entry = Some player /\ league_points player = Some series /\
    List.length (points series) = List.length (years series) /\
    StronglySorted Z.lt (years series).

(** The names of a list that are not stored yet, each once, in the order
    in which they first occur. *)
Fixpoint names_to_add (stored : list string) (player_names : list string)
  : list string :=
  match player_names with
  | [] => []
  | n :: player_names' =>
      if existsb (String.eqb n) stored then names_to_add stored player_names'
      else n :: names_to_add (stored ++ [n]) player_names'
  end.

(** A registry whose [dl_list] is either still missing, with no player
    stored, or a list of seven tables, and whose entries are all computed
    profiles. *)
Definition well_formed (self : FFBAnalyzer) : Prop :=
  ((dl_list self = Unset /\ players self = []) \/
   exists df_list, dl_list self = Bound (Some df_list) /\
                   List.length df_list = 7%nat) /\
  Forall computed (players self).

(** The entry of [players] a search for a name stops at. *)
Definition named (player_name : string) (entry : option PlayerProfile) : bool :=
  match entry with
  | Some player => String.eqb (name player) player_name
  | None => false
  end.

(** The strings on which [upper] and [title] are Python's: every
    character is an ASCII character. *)
Definition is_ascii (s : string) : bool :=
  forallb (fun c => (nat_of_ascii c <? 128)%nat) (list_ascii_of_string s).

(** The name parts of a player name in the words of the specification,
    which asks for exactly two of them, a first and a last name: the
    words of the name, that is its maximal runs of characters other than
    the space.  This follows the specification, not the code, whose own
    parsing is [split_maxsplit1]; the two are compared below. *)
Fixpoint name_parts_from (word : string) (s : string) : list string :=
  match s with
  | EmptyString => if String.eqb word "" then [] else [word]
  | String c s' =>
      if Ascii.eqb c " "%char
      then (if String.eqb word "" then name_parts_from "" s'
            else word :: name_parts_from "" s')
      else name_parts_from (word ++ String c EmptyString) s'
  end.

Definition name_parts (s : string) : list string := name_parts_from "" s.

(** ** Sample data *)

Module Sample.

(** [float] on the strings of the sample tables: unsigned decimal
    integers convert, every other string is refused. *)
Fixpoint digits_value (s : string) (acc : Z) : option Z :=
  match s with
  | EmptyString => Some acc
  | String c s' =>
      let n := nat_of_ascii c in
      if (48 <=? n)%nat && (n <=? 57)%nat
      then digits_value s' (10 * acc + Z.of_nat (n - 48))%Z
      else None
  end.

Definition float_of_digits (s : string) : option Q :=
  match s with
  | EmptyString => None
  | _ => option_map inject_Z (digits_value s 0%Z)
  end.

(** A row's statistical cells from a list of labelled cells. *)
Fixpoint cells (l : list (string * cell)) (col : string) : cell :=
  match l with
  | [] => Str ""
  | (k, v) :: l' => if String.eqb k col then v else cells l' col
  end.

Definition qb_columns : list string :=
  ["Games Started"; "Passing Yards"; "TD Passes"; "Ints";
   "Rushing Yards"; "Longest Rushing Run"].

Definition qb_row (player season : string) (year week : Z)
    (started yards tds ints rush longest : string) : Row :=
  {| Name := player; Season := season; Week := week; Year := year;
     stat := cells [("Games Started", Str started); ("Passing Yards", Str yards);
                    ("TD Passes", Str tds); ("Ints", Str ints);
                    ("Rushing Yards", Str rush);
                    ("Longest Rushing Run", Str longest)] |}.

Definition quarterbacks : DataFrame :=
  {| stat_columns := qb_columns;
     rows :=
       [ qb_row "Brady, Tom" "Regular Season" 2015 1 "1" "288" "4" "0" "1" "2";
         qb_row "Manning, Peyton" "Regular Season" 2015 1 "1" "175" "0" "1" "--" "--";
         qb_row "Brady, Tom" "Regular Season" 2015 17 "1" "134" "0" "0" "--" "--";
         qb_row "Brady, Tom" "Postseason" 2015 19 "1" "302" "2" "0" "6" "11T";
         qb_row "Brady, Tom" "Regular Season" 2014 1 "1" "249" "1" "0" "--" "--";
         qb_row "Brady, Tom" "Preseason" 2014 2 "0" "--" "--" "--" "--" "--";
         qb_row "Brady, Tom" "Regular Season" 2014 2 "1" "149" "1" "0" "10" "5T" ] |}.

Definition kickers : DataFrame :=
  {| stat_columns := ["Games Started"; "Extra Point"];
     rows :=
       [ {| Name := "Gostkowski, Stephen"; Season := "Regular Season";
            Week := 1; Year := 2015;
            stat := cells [("Games Started", Str "--"); ("Extra Point", Num 4%Q)] |} ] |}.

Definition no_rows (cols : list string) : DataFrame :=
  {| stat_columns := cols; rows := [] |}.

(** The directory [Data] with its seven game-log files. *)
Definition Data (path : string) : option DataFrame :=
  if String.eqb path "Data/Game_Logs_Kickers.csv" then Some kickers
  else if String.eqb path "Data/Game_Logs_Quarterback.csv" then Some quarterbacks
  else if String.eqb path "Data/Game_Logs_Punters.csv" then Some (no_rows ["Punts"])
  else if String.eqb path "Data/Game_Logs_Runningback.csv"
    then Some (no_rows ["Rushing Yards"])
  else if String.eqb path "Data/Game_Logs_Wide_Receiver_and_Tight_End.csv"
    then Some (no_rows ["Receptions"])
  else if String.eqb path "Data/Game_Logs_Defensive_Lineman.csv"
    then Some (no_rows ["Sacks"])
  else if String.eqb path "Data/Game_Logs_Offensive_Line.csv"
    then Some (no_rows ["Games Started"])
  else None.

Definition tables : list DataFrame :=
  [kickers; no_rows ["Punts"]; quarterbacks; no_rows ["Rushing Yards"];
   no_rows ["Receptions"]; no_rows ["Sacks"]; no_rows ["Games Started"]].

(** [FFBAnalyzer()]: nothing loaded. *)
Definition unloaded : FFBAnalyzer :=
  snd (FFBAnalyzer_init Data None LeagueSettings_init).

(** [FFBAnalyzer('Data')] *)
Definition loaded : FFBAnalyzer :=
  snd (FFBAnalyzer_init Data (Some "Data") LeagueSettings_init).

(** [loaded] after [AddPlayer('Tom Brady')]. *)
Definition with_brady : FFBAnalyzer :=
  snd (AddPlayer float_of_digits "Tom Brady" loaded).

(** The profile [AddPlayer('Tom Brady')] computes under the default
    settings. *)
Definition brady : PlayerProfile :=
  {| name := "Tom Brady";
     league_points :=
       Some {| years := [2014%Z; 2015%Z]; points := [16.920%Q; 11.620%Q] |} |}.

(** Settings that differ from the default in one weight. *)
Definition one_point_per_yard : LeagueSettings :=
  [("passing_yards", 1%Q); ("rushing_yards", 0.1%Q)].

End Sample.

Module Sample2.

(** A receivers table with a cell that [float] refuses. *)
Definition receivers : DataFrame :=
  {| stat_columns := ["Receptions"; "Receiving Yards"; "Longest Reception"];
     rows :=
       [ {| Name := "Rice, Jerry"; Season := "Regular Season"; Week := 3;
            Year := 1995;
            stat := Sample.cells [("Receptions", Str "9");
                                  ("Receiving Yards", Str "1,139");
                                  ("Longest Reception", Str "81T")] |} ] |}.

(** A directory that holds no game log. *)
Definition Nothing (path : string) : option DataFrame := None.

(** [Sample.with_brady] after a [ChangeLeagueSettings] that raised and a
    second [AddPlayer('Tom Brady')]. *)
Definition two_bradys : FFBAnalyzer :=
  snd (AddPlayer Sample.float_of_digits "Tom Brady"
         (snd (ChangeLeagueSettings Sample.float_of_digits
                 Sample.one_point_per_yard Sample.with_brady))).

Definition names : list string :=
  ["Stephen Gostkowski"; "Tom Brady"; "Stephen Gostkowski"].

End Sample2.

(** * Properties *)

(** ** Scoring rules *)

(** C5: a default-constructed settings object maps each category to the
    weight of the fixed table, in the order of the table, and holds no
    other category. *)
Theorem LeagueSettings_init_table :
  categories LeagueSettings_init =
  [ ("passing yards", 0.04%Q); ("passing tds", 4%Q); ("interceptions", (-1)%Q);
    ("rushing yards", 0.1%Q); ("rushing tds", 6%Q); ("receptions", 0.5%Q);
    ("receiving yards", 0.1%Q); ("receiving tds", 6%Q);
    ("two pt conversions", 2%Q); ("fumbles lost", (-2)%Q);
    ("offensive fumble return tds", 6%Q); ("yards 40 plus", 0%Q);
    ("tds 40 plus", 0%Q); ("fg 20", 3%Q); ("fg 30", 3%Q); ("fg 40", 3%Q);
    ("fg 50", 4%Q); ("fg 50 plus", 5%Q); ("extra point", 1%Q) ].
Proof. reflexivity. Qed.

(** ** Name parsing *)

Lemma split_maxsplit1_cases (s : string) :
  (exists a b, cut_at_space s = Some (a, b) /\ split_maxsplit1 s = [a; b]) \/
  (cut_at_space s = None /\ split_maxsplit1 s = [s]).
Proof.
  unfold split_maxsplit1.
  destruct (cut_at_space s) as [[a b]|] eqn:E.
  - left. exists a, b. split; reflexivity.
  - right. split; reflexivity.
Qed.

(** A name splits in two exactly when it holds a space. *)
Lemma cut_at_space_None (s : string) :
  cut_at_space s = None <-> ~ In " "%char (list_ascii_of_string s).
Proof.
  induction s as [|c s IH]; simpl.
  - split; [intros _ [] | reflexivity].
  - destruct (Ascii.eqb c " ") eqn:E.
    + apply Ascii.eqb_eq in E. subst c.
      split; [discriminate | intros H; exfalso; apply H; left; reflexivity].
    + apply Ascii.eqb_neq in E.
      destruct (cut_at_space s) as [[a b]|].
      * split; [discriminate|].
        intros H. exfalso. apply H. right.
        destruct (in_dec ascii_dec " "%char (list_ascii_of_string s)) as [i|n];
          [exact i | exfalso; apply IH in n; discriminate].
      * split; [|reflexivity].
        intros _ [H|H]; [congruence | now apply IH in H].
Qed.

(** ** The season filter *)

Lemma check_bool_true (name_combo : string)
    (include_post_season remove_week17 : bool) (r : Row) :
  check_bool name_combo include_post_season remove_week17 r = true <->
  upper (Name r) = upper name_combo /\
  (Season r = "Regular Season" \/
   include_post_season = true /\ Season r = "Postseason") /\
  (remove_week17 = true -> Week r <> 17%Z).
Proof.
  unfold check_bool.
  rewrite <- (String.eqb_eq (upper (Name r))).
  rewrite <- (String.eqb_eq (Season r) "Regular Season").
  rewrite <- (String.eqb_eq (Season r) "Postseason").
  rewrite <- Z.eqb_neq.
  destruct (upper (Name r) =? upper name_combo);
    destruct (Season r =? "Regular Season");
    destruct (Season r =? "Postseason");
    destruct (Week r =? 17)%Z;
    destruct include_post_season; destruct remove_week17; simpl;
    intuition congruence.
Qed.

Lemma filter_length_mono {A B : Type} (p q : A -> bool) (g : A -> B)
    (f : B -> bool) (l : list A) :
  (forall a, p a = true -> q a = true) ->
  (List.length (filter f (map g (filter p l))) <=
   List.length (filter f (map g (filter q l))))%nat.
Proof.
  intros H. induction l as [|a l IH]; simpl; [lia|].
  destruct (p a) eqn:P.
  - rewrite (H a P). simpl. destruct (f (g a)); simpl; lia.
  - destruct (q a); simpl; [destruct (f (g a)); simpl|]; lia.
Qed.

(** C6: for a fixed week-17 setting, the rows kept with the post season
    included are the player's "Regular Season" rows together with the
    player's "Postseason" rows; the rows kept without it are the
    "Regular Season" rows among them, so they are all kept with it, and
    no year has fewer rows in its aggregate with the post season than
    without. *)
Theorem include_post_season_superset (name_combo : string)
    (remove_week17 : bool) (df : DataFrame) :
  let kept := fun include_post_season =>
    filter (check_bool name_combo include_post_season remove_week17) (rows df) in
  (forall r, In r (kept true) <->
     In r (rows df) /\ upper (Name r) = upper name_combo /\
     (Season r = "Regular Season" \/ Season r = "Postseason") /\
     (remove_week17 = true -> Week r <> 17%Z)) /\
  (forall r, In r (kept false) <->
     In r (rows df) /\ upper (Name r) = upper name_combo /\
     Season r = "Regular Season" /\
     (remove_week17 = true -> Week r <> 17%Z)) /\
  kept false = filter (fun r => Season r =? "Regular Season") (kept true) /\
  incl (kept false) (kept true) /\
  forall year : Z,
    (List.length (filter (fun r => Year r =? year)%Z
                    (df_player name_combo false remove_week17 df)) <=
     List.length (filter (fun r => Year r =? year)%Z
                    (df_player name_combo true remove_week17 df)))%nat.
Proof.
  intros kept.
  assert (sub : forall r, check_bool name_combo false remove_week17 r = true ->
                          check_bool name_combo true remove_week17 r = true).
  { intros r. rewrite !check_bool_true. intuition congruence. }
  split; [|split; [|split; [|split]]].
  - intros r. unfold kept. rewrite filter_In, check_bool_true. intuition congruence.
  - intros r. unfold kept. rewrite filter_In, check_bool_true. intuition congruence.
  - unfold kept. induction (rows df) as [|r l IH]; simpl; [reflexivity|].
    destruct (check_bool name_combo false remove_week17 r) eqn:F.
    + rewrite (sub r F). simpl.
      apply check_bool_true in F. destruct F as (_ & [S|[? _]] & _);
        [|discriminate].
      apply String.eqb_eq in S. rewrite S. f_equal. exact IH.
    + destruct (check_bool name_combo true remove_week17 r) eqn:T; [|exact IH].
      simpl. destruct (Season r =? "Regular Season") eqn:S; [|exact IH].
      exfalso. apply String.eqb_eq in S.
      apply check_bool_true in T. destruct T as (N & _ & W).
      assert (check_bool name_combo false remove_week17 r = true)
        by (apply check_bool_true; auto).
      congruence.
  - intros r. unfold kept. rewrite !filter_In. intros [I C]. auto.
  - intros year. unfold df_player. apply filter_length_mono. exact sub.
Qed.

(** ** The years of a series *)

Lemma insert_unique_In (y z : Z) (l : list Z) :
  In z (insert_unique y l) <-> z = y \/ In z l.
Proof.
  induction l as [|x l IH]; simpl.
  - intuition.
  - destruct (y <? x)%Z; [simpl; intuition|].
    destruct (y =? x)%Z eqn:E.
    + apply Z.eqb_eq in E. subst x. simpl. intuition.
    + simpl. rewrite IH. intuition.
Qed.

Lemma insert_unique_sorted (y : Z) (l : list Z) :
  StronglySorted Z.lt l -> StronglySorted Z.lt (insert_unique y l).
Proof.
  induction 1 as [|x l S IH F]; simpl.
  - repeat constructor.
  - destruct (y <? x)%Z eqn:L.
    + apply Z.ltb_lt in L. constructor; [constructor; assumption|].
      constructor; [exact L|].
      eapply Forall_impl; [|exact F]. intros a; simpl; lia.
    + destruct (y =? x)%Z eqn:E; [constructor; assumption|].
      apply Z.ltb_ge in L. apply Z.eqb_neq in E.
      constructor; [exact IH|].
      apply Forall_forall. intros z I. apply insert_unique_In in I.
      destruct I as [->|I]; [lia|].
      rewrite Forall_forall in F. auto.
Qed.

Lemma np_unique_In (y : Z) (l : list Z) : In y (np_unique l) <-> In y l.
Proof.
  induction l as [|x l IH]; simpl; [tauto|].
  rewrite insert_unique_In, IH. intuition.
Qed.

Lemma np_unique_sorted (l : list Z) : StronglySorted Z.lt (np_unique l).
Proof.
  induction l as [|x l IH]; simpl;
    [constructor | apply insert_unique_sorted, IH].
Qed.

Lemma ascending_NoDup (l : list Z) : StronglySorted Z.lt l -> NoDup l.
Proof.
  induction 1 as [|x l S IH F]; constructor; [|exact IH].
  intros I. rewrite Forall_forall in F. specialize (F x I). lia.
Qed.

(** ** Lists of results *)

Lemma mapM_Ok {A B : Type} (f : A -> result B) (l : list A) :
  (forall a, In a l -> exists b, f a = Ok b) ->
  exists bs, mapM f l = Ok bs.
Proof.
  induction l as [|a l IH]; intros H; simpl.
  - eexists; reflexivity.
  - destruct (H a (or_introl eq_refl)) as [b ->].
    destruct IH as [bs ->]; [intros; apply H; right; assumption|].
    eexists; reflexivity.
Qed.

(** ** The choice of the table *)

Lemma for_df_single_find (name_combo : string) (df_list : list DataFrame)
    (df : DataFrame) (df_single : option DataFrame) :
  find (name_check name_combo) df_list = Some df ->
  for_df_single name_combo df_list df_single = Some df.
Proof.
  revert df_single. induction df_list as [|d l IH]; intros df_single; simpl;
    [discriminate|].
  destruct (name_check name_combo d); [trivial | apply IH].
Qed.

Lemma last_cons_default {A : Type} (a d d' : A) (l : list A) :
  last (a :: l) d = last (a :: l) d'.
Proof.
  revert a. induction l as [|b l IH]; intros a; [reflexivity|].
  change (last (b :: l) d = last (b :: l) d'). apply IH.
Qed.

Lemma last_In {A : Type} (a d : A) (l : list A) :
  In (last (a :: l) d) (a :: l).
Proof.
  revert a. induction l as [|b l IH]; intros a; [left; reflexivity|].
  right. change (In (last (b :: l) d) (b :: l)). apply IH.
Qed.

Lemma for_df_single_last (name_combo : string) (df_list : list DataFrame)
    (df_single : DataFrame) :
  find (name_check name_combo) df_list = None ->
  for_df_single name_combo df_list (Some df_single)
  = Some (last df_list df_single).
Proof.
  revert df_single. induction df_list as [|d l IH]; intros df_single; simpl;
    [reflexivity|].
  destruct (name_check name_combo d); [discriminate|].
  intros F. rewrite (IH d F). destruct l as [|d0 l]; [reflexivity|].
  f_equal. apply last_cons_default.
Qed.

(** ** Sums and lookups *)

Lemma fold_left_Qplus (xs : list Q) (a : Q) :
  fold_left Qplus xs a == a + fold_left Qplus xs 0.
Proof.
  revert a. induction xs as [|x xs IH]; intros a; simpl.
  - ring.
  - rewrite (IH (a + x)), (IH (0 + x)). ring.
Qed.

Lemma Qsum_cons (x : Q) (xs : list Q) : Qsum (x :: xs) == x + Qsum xs.
Proof. unfold Qsum. simpl. rewrite fold_left_Qplus. ring. Qed.

Lemma Series_get_None (key : string) (s : list (string * Q)) :
  ~ In key (map fst s) -> Series_get key s = None.
Proof.
  induction s as [|[k v] s IH]; simpl; [reflexivity|].
  intros N. destruct (String.eqb k key) eqn:E.
  - apply String.eqb_eq in E. tauto.
  - apply IH. tauto.
Qed.

Lemma filter_year_replace (year : Z) (rs : list Row) :
  filter (fun r => Year r =? year)%Z (map replace_row rs)
  = map replace_row (filter (fun r => Year r =? year)%Z rs).
Proof.
  induction rs as [|r rs IH]; simpl; [reflexivity|].
  destruct (Year r =? year)%Z; simpl; rewrite IH; reflexivity.
Qed.

Lemma name_check_false (name_combo : string) (df : DataFrame)
    (include_post_season remove_week17 : bool) :
  name_check name_combo df = false ->
  df_player name_combo include_post_season remove_week17 df = [].
Proof.
  unfold name_check, df_player. intros H.
  induction (rows df) as [|r l IH]; [reflexivity|].
  simpl in H. apply orb_false_iff in H. destruct H as [N H].
  simpl. unfold check_bool at 1. rewrite N.
  destruct include_post_season, remove_week17; simpl; apply IH, H.
Qed.

Section Properties.

Set Default Proof Using "Type".

Variable float_of_str : string -> option Q.

(** A name that [split_maxsplit1] does not cut in two parts makes
    [CalculatePlayerPoints] fail with the [ValueError] of the unpacking
    [first_name, last_name = ...], whatever the tables, the settings and
    the flags. *)
Lemma CalculatePlayerPoints_invalid_name
    (self : PlayerProfile) (df_list : list DataFrame)
    (settings : LeagueSettings) (include_post_season remove_week17 : bool) :
  List.length (split_maxsplit1 (name self)) <> 2%nat ->
  CalculatePlayerPoints float_of_str self df_list settings include_post_season remove_week17
  = Raise ValueError_unpack.
Proof.
  intros H. unfold CalculatePlayerPoints.
  destruct (split_maxsplit1_cases (name self)) as [(a & b & _ & E)|[_ E]];
    rewrite E in *; simpl in *.
  - congruence.
  - reflexivity.
Qed.

(** ** The registry *)

(** The guard of [AddPlayer] does fire when [dl_list] is bound to
    [None]. *)
Lemma AddPlayer_dl_list_None (player_name : string) (self : FFBAnalyzer) :
  dl_list self = Bound None ->
  AddPlayer float_of_str player_name self = (Raise NameError_not_loaded, self).
Proof.
  intros H. unfold AddPlayer, then_, self_dl_list, eval, raise.
  rewrite H. reflexivity.
Qed.

Lemma AddPlayer_dl_list_Unset (player_name : string) (self : FFBAnalyzer) :
  dl_list self = Unset ->
  AddPlayer float_of_str player_name self = (Raise (AttributeError "dl_list"), self).
Proof.
  intros H. unfold AddPlayer, then_, self_dl_list, eval.
  rewrite H. reflexivity.
Qed.

(** C9: [AddPlayers] fails on every list of names, the empty one too,
    with the [NameError] of the unbound name [players], and adds no
    player. *)
Theorem AddPlayers_NameError (player_names : list string) (self : FFBAnalyzer) :
  AddPlayers float_of_str player_names self = (Raise (NameError_undefined "players"), self).
Proof. reflexivity. Qed.

Lemma CalculatePlayerPoints_name (self p : PlayerProfile)
    (df_list : list DataFrame) (settings : LeagueSettings)
    (include_post_season remove_week17 : bool) :
  CalculatePlayerPoints float_of_str self df_list settings
                        include_post_season remove_week17 = Ok p ->
  name p = name self.
Proof.
  unfold CalculatePlayerPoints. intros C.
  destruct (unpack2 _) as [[f l]|]; simpl in C; try discriminate.
  destruct (for_df_single _ _ _); try discriminate.
  destruct (for_year _ _ _ _ _ _); simpl in C; try discriminate.
  injection C as <-. reflexivity.
Qed.

(** C10: a successful [AddPlayer] appends the new profile at the end of
    [players] and leaves every other attribute of the registry as it
    was; the profile carries the name given. *)
Theorem AddPlayer_frame (player_name : string) (self self' : FFBAnalyzer)
    (player : PlayerProfile) :
  AddPlayer float_of_str player_name self = (Ok player, self') ->
  players self' = (players self ++ [Some player])%list /\
  name player = player_name /\
  league_settings self' = league_settings self /\
  dl_list self' = dl_list self /\
  (df_k self', df_p self', df_qb self', df_rb self', df_wr self',
   df_dline self', df_oline self')
  = (df_k self, df_p self, df_qb self, df_rb self, df_wr self,
     df_dline self, df_oline self).
Proof.
  unfold AddPlayer, then_, self_dl_list, eval, raise.
  destruct (dl_list self) as [|[df_list|]] eqn:D; try discriminate.
  destruct (CalculatePlayerPoints _ _ _ _ _ _) as [p|e] eqn:C;
    try discriminate.
  intros H. injection H as <- <-.
  apply CalculatePlayerPoints_name in C.
  repeat split; assumption.
Qed.

(** ** The years of a returned series *)

Lemma numeric_rows_year (cols : list string) (rs : list Row) (year : Z) :
  numeric_rows float_of_str cols rs = true ->
  exists stats, player_year_stats float_of_str cols rs year = Ok stats.
Proof.
  unfold numeric_rows, player_year_stats, astype_float. intros H.
  rewrite forallb_forall in H.
  match goal with |- context [mapM ?f ?l] =>
    destruct (mapM_Ok f l) as [fr ->] end.
  - intros col I.
    match goal with |- context [mapM ?f ?l] =>
      destruct (mapM_Ok f l) as [xs ->] end.
    + intros r R. apply filter_In in R. destruct R as [R _].
      specialize (H r R). rewrite forallb_forall in H. specialize (H col I).
      unfold numeric_cell in H.
      destruct (to_float float_of_str (stat r col)); [eauto|discriminate].
    + eexists; reflexivity.
  - eexists; reflexivity.
Qed.

Lemma for_year_Ok (cols : list string) (rs : list Row)
    (settings : LeagueSettings) (ys : list Z) (acc : list Q) :
  numeric_rows float_of_str cols rs = true ->
  exists pts,
    for_year float_of_str cols rs settings ys acc = Ok pts /\
    List.length pts = (List.length acc + List.length ys)%nat.
Proof.
  intros H. revert acc. induction ys as [|y ys IH]; intros acc; simpl.
  - exists acc. split; [reflexivity|lia].
  - destruct (numeric_rows_year cols rs y H) as [stats ->]. simpl.
    destruct (IH (acc ++ [score stats settings])%list) as (pts & -> & L).
    exists pts. split; [reflexivity|].
    rewrite L, length_app. simpl. lia.
Qed.

Lemma for_year_length (cols : list string) (rs : list Row)
    (settings : LeagueSettings) (ys : list Z) (acc pts : list Q) :
  for_year float_of_str cols rs settings ys acc = Ok pts ->
  List.length pts = (List.length acc + List.length ys)%nat.
Proof.
  revert acc. induction ys as [|y ys IH]; intros acc; simpl.
  - intros [= <-]. lia.
  - destruct (player_year_stats float_of_str cols rs y); simpl;
      [|discriminate].
    intros E. apply IH in E. rewrite E, length_app. simpl. lia.
Qed.

(** C4: for a name that splits in two and is found in a table whose
    summed cells all convert, [CalculatePlayerPoints] returns a series
    with one points entry per year, whose years are strictly ascending,
    without duplicates, and are exactly the years of the rows kept for
    the player in the first table that holds the name. *)
Theorem CalculatePlayerPoints_years (self : PlayerProfile)
    (df_list : list DataFrame) (settings : LeagueSettings)
    (include_post_season remove_week17 : bool)
    (first_name last_name : string) (df : DataFrame) :
  split_maxsplit1 (name self) = [first_name; last_name] ->
  find (name_check (title last_name ++ ", " ++ title first_name)) df_list
  = Some df ->
  numeric_rows float_of_str (stat_columns df)
    (df_player (title last_name ++ ", " ++ title first_name)
               include_post_season remove_week17 df) = true ->
  exists series,
    CalculatePlayerPoints float_of_str self df_list settings
                          include_post_season remove_week17
    = Ok {| name := name self; league_points := Some series |} /\
    List.length (points series) = List.length (years series) /\
    StronglySorted Z.lt (years series) /\
    NoDup (years series) /\
    forall y, In y (years series) <->
      exists r,
        In r (filter (check_bool (title last_name ++ ", " ++ title first_name)
                                 include_post_season remove_week17)
                     (rows df)) /\
        Year r = y.
Proof.
  intros S F N. unfold CalculatePlayerPoints. rewrite S.
  cbv beta iota delta [unpack2 bind].
  rewrite (for_df_single_find _ _ _ None F).
  destruct (for_year_Ok _ _ settings
              (np_unique (map Year (df_player
                 (title last_name ++ ", " ++ title first_name)
                 include_post_season remove_week17 df))) [] N)
    as (pts & E & L).
  rewrite E. eexists. split; [reflexivity|]. cbn [years points].
  split; [exact L|]. split; [apply np_unique_sorted|].
  split; [apply ascending_NoDup, np_unique_sorted|].
  intros y. rewrite np_unique_In. unfold df_player. rewrite map_map.
  cbn [Year replace_row]. rewrite in_map_iff.
  split; intros (r & A & B); exists r; tauto.
Qed.

(** ** The totals of a year *)

(** What [astype(float)] leaves in each column. *)
Lemma astype_float_columns (cols : list string) (rs : list Row)
    (fr : list (string * list Q)) :
  astype_float float_of_str cols rs = Ok fr ->
  Forall2 (fun col cx =>
             fst cx = col /\
             mapM (fun r => to_float float_of_str (stat r col)) rs = Ok (snd cx))
          cols fr.
Proof.
  unfold astype_float. revert fr.
  induction cols as [|col cols IH]; intros fr; simpl.
  - intros [= <-]. constructor.
  - destruct (mapM (fun r => to_float float_of_str (stat r col)) rs)
      as [xs|] eqn:X; simpl; [|discriminate].
    destruct (mapM _ cols) as [fr'|]; simpl; [|discriminate].
    intros [= <-]. constructor; [split; [reflexivity|exact X] | apply IH; reflexivity].
Qed.

Lemma DataFrame_sum_get (cols : list string) (rs : list Row)
    (fr : list (string * list Q)) :
  Forall2 (fun col cx =>
             fst cx = col /\
             mapM (fun r => to_float float_of_str (stat r col)) rs = Ok (snd cx))
          cols fr ->
  map fst (DataFrame_sum fr) = cols /\
  forall col, In col cols ->
    exists xs,
      mapM (fun r => to_float float_of_str (stat r col)) rs = Ok xs /\
      Series_get col (DataFrame_sum fr) = Some (Qsum xs).
Proof.
  induction 1 as [|c [k xs] cols fr [K X] F [IHm IHg]]; simpl in *.
  - split; [reflexivity | intros col []].
  - subst k. split; [f_equal; exact IHm|].
    intros col I. destruct (String.eqb c col) eqn:E.
    + apply String.eqb_eq in E. subst col. exists xs. split; [exact X|reflexivity].
    + destruct I as [->|I]; [rewrite String.eqb_refl in E; discriminate|].
      apply IHg, I.
Qed.

(** Summing a column after the replacement is summing the cells that
    are not the mark. *)
Lemma replaced_column_sum (col : string) (rs : list Row) (xs : list Q) :
  mapM (fun r => to_float float_of_str (stat r col)) (map replace_row rs) = Ok xs ->
  exists ys,
    mapM (fun r => to_float float_of_str (stat r col))
         (filter (fun r => negb (is_no_data (stat r col))) rs) = Ok ys /\
    Qsum xs == Qsum ys.
Proof.
  revert xs. induction rs as [|r rs IH]; intros xs; simpl.
  - intros [= <-]. exists []. split; reflexivity.
  - destruct (mapM _ (map replace_row rs)) as [xs'|] eqn:M.
    2:{ destruct (to_float float_of_str (replace_no_data (stat r col)));
        discriminate. }
    destruct (IH xs' eq_refl) as (ys' & Y & HQ).
    destruct (stat r col) as [q|s] eqn:C; simpl.
    + rewrite C. simpl. rewrite Y. simpl.
      intros [= <-]. exists (q :: ys'). split; [reflexivity|].
      rewrite !Qsum_cons, HQ. reflexivity.
    + destruct (String.eqb s "--") eqn:E; simpl; rewrite ?E; simpl.
      * intros [= <-]. exists ys'. split; [exact Y|].
        rewrite Qsum_cons, HQ. ring.
      * rewrite C. simpl.
        destruct (float_of_str s) as [q|]; simpl; [|discriminate].
        rewrite Y. simpl.
        intros [= <-]. exists (q :: ys'). split; [reflexivity|].
        rewrite !Qsum_cons, HQ. reflexivity.
Qed.

(** C7: in the aggregate of a year, the labels of the totals are the
    statistical columns without "Longest Reception" and "Longest Rushing
    Run", which have no total even when the table has them, and the
    total of a column is the sum of the kept cells of that year that are
    not the mark ['--']: a cell holding the mark adds 0. *)
Theorem no_data_adds_zero (name_combo : string)
    (include_post_season remove_week17 : bool) (df : DataFrame) (year : Z)
    (stats : list (string * Q)) :
  player_year_stats float_of_str (stat_columns df)
    (df_player name_combo include_post_season remove_week17 df) year
  = Ok stats ->
  map fst stats = drop_exception_cols (stat_columns df) /\
  Series_get "Longest Reception" stats = None /\
  Series_get "Longest Rushing Run" stats = None /\
  forall col, In col (map fst stats) ->
    exists total xs,
      Series_get col stats = Some total /\
      mapM (fun r => to_float float_of_str (stat r col))
           (filter (fun r => negb (is_no_data (stat r col)))
              (filter (fun r => Year r =? year)%Z
                 (filter (check_bool name_combo include_post_season remove_week17)
                         (rows df))))
      = Ok xs /\
      total == Qsum xs.
Proof.
  unfold player_year_stats, df_player. rewrite filter_year_replace.
  destruct (astype_float _ _ _) as [fr|] eqn:A; simpl; [|discriminate].
  intros [= <-].
  apply astype_float_columns, DataFrame_sum_get in A. destruct A as [M G].
  assert (X : forall c, In c exception_cols ->
              ~ In c (drop_exception_cols (stat_columns df))).
  { intros c I H. unfold drop_exception_cols in H. apply filter_In in H.
    destruct H as [_ H]. apply negb_true_iff in H.
    assert (existsb (String.eqb c) exception_cols = true); [|congruence].
    apply existsb_exists. exists c. split; [exact I | apply String.eqb_refl]. }
  split; [exact M|].
  split; [apply Series_get_None; rewrite M; apply X; simpl; auto|].
  split; [apply Series_get_None; rewrite M; apply X; simpl; auto|].
  intros col I. rewrite M in I. destruct (G col I) as (xs & E & S).
  destruct (replaced_column_sum col _ xs E) as (ys & Y & HQ).
  exists (Qsum xs), ys. repeat split; assumption.
Qed.

(** ** The table used *)

Lemma CalculatePlayerPoints_absent (player : PlayerProfile)
    (d : DataFrame) (df_list : list DataFrame) (settings : LeagueSettings)
    (include_post_season remove_week17 : bool) (first_name last_name : string) :
  split_maxsplit1 (name player) = [first_name; last_name] ->
  find (name_check (title last_name ++ ", " ++ title first_name)) (d :: df_list)
  = None ->
  for_df_single (title last_name ++ ", " ++ title first_name) (d :: df_list) None
  = Some (last df_list d) /\
  CalculatePlayerPoints float_of_str player (d :: df_list) settings
                        include_post_season remove_week17
  = Ok {| name := name player;
          league_points := Some {| years := []; points := [] |} |}.
Proof.
  intros S F.
  assert (A : forall x, In x (d :: df_list) ->
              name_check (title last_name ++ ", " ++ title first_name) x = false)
    by (intros x; apply find_none; exact F).
  assert (E : for_df_single (title last_name ++ ", " ++ title first_name)
                (d :: df_list) None = Some (last df_list d)).
  { cbn [for_df_single]. rewrite (A d (or_introl eq_refl)).
    apply for_df_single_last.
    cbn [find] in F. rewrite (A d (or_introl eq_refl)) in F. exact F. }
  split; [exact E|].
  unfold CalculatePlayerPoints. rewrite S.
  cbv beta iota delta [unpack2 bind]. rewrite E.
  rewrite name_check_false; [reflexivity|].
  apply A. destruct df_list as [|d' l]; [left; reflexivity|].
  right. apply last_In.
Qed.

Lemma CalculatePlayerPoints_first (player : PlayerProfile)
    (df : DataFrame) (df_list : list DataFrame) (settings : LeagueSettings)
    (include_post_season remove_week17 : bool) (first_name last_name : string) :
  split_maxsplit1 (name player) = [first_name; last_name] ->
  find (name_check (title last_name ++ ", " ++ title first_name)) df_list
  = Some df ->
  for_df_single (title last_name ++ ", " ++ title first_name) df_list None
  = Some df /\
  CalculatePlayerPoints float_of_str player df_list settings
                        include_post_season remove_week17
  = CalculatePlayerPoints float_of_str player [df] settings
                          include_post_season remove_week17.
Proof.
  intros S F. pose proof (for_df_single_find _ _ _ None F) as E.
  split; [exact E|].
  unfold CalculatePlayerPoints. rewrite S.
  cbv beta iota delta [unpack2 bind]. rewrite E.
  cbn [for_df_single]. apply find_some in F. destruct F as [_ ->].
  reflexivity.
Qed.

(** ** Changing the settings *)

Lemma ChangeLeagueSettings_TypeError (new_league_settings : LeagueSettings)
    (self : FFBAnalyzer) (player : PlayerProfile)
    (others : list (option PlayerProfile)) (df_list : option (list DataFrame)) :
  players self = Some player :: others ->
  dl_list self = Bound df_list ->
  ChangeLeagueSettings float_of_str new_league_settings self
  = (Raise (TypeError_missing "league_settings"),
     set_league_settings new_league_settings self).
Proof.
  intros P D.
  unfold ChangeLeagueSettings, UpdatePlayerScores, then_, assign.
  cbn [players set_league_settings]. rewrite P.
  cbn [for_player_update]. unfold then_, self_dl_list, eval.
  cbn [dl_list set_league_settings]. rewrite D. reflexivity.
Qed.

Lemma ChangeLeagueSettings_no_players (new_league_settings : LeagueSettings)
    (self : FFBAnalyzer) :
  players self = [] ->
  ChangeLeagueSettings float_of_str new_league_settings self
  = (Ok tt, set_league_settings new_league_settings self).
Proof.
  intros P.
  unfold ChangeLeagueSettings, UpdatePlayerScores, then_, assign.
  cbn [players set_league_settings]. rewrite P.
  destruct self; simpl in *; subst; reflexivity.
Qed.

(** ** Loading and the order of the tables *)

Section Loading.

Variable read_csv : string -> option DataFrame.

(** C3: on a registry constructed without a path, [AddPlayer] stores
    nothing and fails, but with [AttributeError]: the constructor never
    creates [dl_list], so reading it fails before the guard that raises
    the "not loaded" [NameError] is reached. *)
Theorem AddPlayer_unloaded (player_name : string) (settings : LeagueSettings) :
  let self := snd (FFBAnalyzer_init read_csv None settings) in
  AddPlayer float_of_str player_name self = (Raise (AttributeError "dl_list"), self) /\
  fst (AddPlayer float_of_str player_name self) <> Raise NameError_not_loaded /\
  players (snd (AddPlayer float_of_str player_name self)) = [].
Proof.
  intros self.
  rewrite (AddPlayer_dl_list_Unset player_name self eq_refl).
  repeat split. simpl. discriminate.
Qed.

Lemma LoadNflData_Ok (filepath : string) (self0 self : FFBAnalyzer) :
  LoadNflData read_csv filepath self0 = (Ok tt, self) ->
  exists k p qb rb wr dline oline,
    self = mkFFBAnalyzer (players self0) (league_settings self0)
             (Some dline) (Some oline) (Some k) (Some p) (Some qb)
             (Some rb) (Some wr)
             (Bound (Some [k; p; qb; rb; wr; dline; oline])).
Proof.
  unfold LoadNflData, then_, pd_read_csv, eval, assign.
  repeat match goal with
         | |- context [read_csv ?path] =>
             destruct (read_csv path); [|discriminate]
         end.
  intros [= <-]. do 7 eexists. reflexivity.
Qed.

(** C1, as the code has it: after a successful load the list searched is
    kickers, punters, quarterbacks, running backs, receivers and tight
    ends, defensive line, offensive line.  For a name that splits in two,
    the table used is the first of the list that holds the normalized
    name, and the result is the one that table alone gives; when no
    table holds it the search ends on the offensive line and the result
    is a profile with an empty series, not an error. *)
Theorem CalculatePlayerPoints_table_choice (filepath : string)
    (self0 self : FFBAnalyzer) (player : PlayerProfile)
    (settings : LeagueSettings) (include_post_season remove_week17 : bool)
    (first_name last_name : string) :
  LoadNflData read_csv filepath self0 = (Ok tt, self) ->
  split_maxsplit1 (name player) = [first_name; last_name] ->
  exists k p qb rb wr dline oline,
    (df_k self, df_p self, df_qb self, df_rb self, df_wr self,
     df_dline self, df_oline self)
    = (Some k, Some p, Some qb, Some rb, Some wr, Some dline, Some oline) /\
    dl_list self = Bound (Some [k; p; qb; rb; wr; dline; oline]) /\
    let name_combo := title last_name ++ ", " ++ title first_name in
    let df_list := [k; p; qb; rb; wr; dline; oline] in
    match find (name_check name_combo) df_list with
    | Some df =>
        for_df_single name_combo df_list None = Some df /\
        CalculatePlayerPoints float_of_str player df_list settings
                              include_post_season remove_week17
        = CalculatePlayerPoints float_of_str player [df] settings
                                include_post_season remove_week17
    | None =>
        for_df_single name_combo df_list None = Some oline /\
        CalculatePlayerPoints float_of_str player df_list settings
                              include_post_season remove_week17
        = Ok {| name := name player;
                league_points := Some {| years := []; points := [] |} |}
    end.
Proof.
  intros L S.
  destruct (LoadNflData_Ok _ _ _ L) as (k & p & qb & rb & wr & dline & oline & ->).
  exists k, p, qb, rb, wr, dline, oline.
  split; [reflexivity|]. split; [reflexivity|].
  intros name_combo df_list.
  destruct (find (name_check name_combo) df_list) as [df|] eqn:F.
  - apply CalculatePlayerPoints_first; assumption.
  - apply (CalculatePlayerPoints_absent player k [p; qb; rb; wr; dline; oline]);
      assumption.
Qed.

End Loading.

End Properties.

(** * The properties on the sample data *)

(** C2: on the sample registry holding Tom Brady's profile,
    [ChangeLeagueSettings] replaces the settings and then fails with
    [TypeError], because [UpdatePlayerScores] calls
    [CalculatePlayerPoints] without [league_settings]; the stored profile
    keeps the series computed under the old settings, which is not the one
    a fresh calculation under the new settings gives. *)
Theorem ChangeLeagueSettings_leaves_stale :
  let self := Sample.with_brady in
  let new_league_settings := Sample.one_point_per_yard in
  let after :=
    ChangeLeagueSettings Sample.float_of_digits new_league_settings self in
  players self = [Some Sample.brady] /\
  fst after = Raise (TypeError_missing "league_settings") /\
  league_settings (snd after) = new_league_settings /\
  players (snd after) = [Some Sample.brady] /\
  exists fresh,
    CalculatePlayerPoints Sample.float_of_digits (PlayerProfile_init "Tom Brady")
      Sample.tables new_league_settings false true = Ok fresh /\
    league_points fresh <> league_points Sample.brady.
Proof.
  intros self new_league_settings after.
  assert (P : players self = [Some Sample.brady]) by reflexivity.
  assert (A : after = (Raise (TypeError_missing "league_settings"),
                       set_league_settings new_league_settings self)).
  { apply (ChangeLeagueSettings_TypeError Sample.float_of_digits
             new_league_settings self Sample.brady [] (Some Sample.tables) P).
    reflexivity. }
  rewrite A. repeat split; try assumption.
  eexists. split; [vm_compute; reflexivity|].
  simpl. discriminate.
Qed.

(** C1, a name held by no table: on the sample tables "John Smith" is in
    none of the seven, and [CalculatePlayerPoints] raises nothing: it
    returns a profile with an empty series. *)
Lemma CalculatePlayerPoints_absent_name_returns :
  split_maxsplit1 "John Smith" = ["John"; "Smith"] /\
  title "Smith" ++ ", " ++ title "John" = "Smith, John" /\
  (forall df, In df Sample.tables -> name_check "Smith, John" df = false) /\
  CalculatePlayerPoints Sample.float_of_digits (PlayerProfile_init "John Smith")
    Sample.tables LeagueSettings_init false true
  = Ok {| name := "John Smith";
          league_points := Some {| years := []; points := [] |} |} /\
  forall e,
    CalculatePlayerPoints Sample.float_of_digits (PlayerProfile_init "John Smith")
      Sample.tables LeagueSettings_init false true <> Raise e.
Proof.
  split; [reflexivity|]. split; [reflexivity|].
  split.
  - intros df I. simpl in I.
    repeat (destruct I as [<-|I]; [reflexivity|]). destruct I.
  - assert (E : CalculatePlayerPoints Sample.float_of_digits
                  (PlayerProfile_init "John Smith") Sample.tables
                  LeagueSettings_init false true
                = Ok {| name := "John Smith";
                        league_points := Some {| years := []; points := [] |} |})
      by reflexivity.
    split; [exact E|]. intros e. rewrite E. discriminate.
Qed.

(** ** Instances *)

Lemma CalculatePlayerPoints_table_choice_witness :
  LoadNflData Sample.Data "Data" Sample.unloaded = (Ok tt, Sample.loaded) /\
  split_maxsplit1 "Tom Brady" = ["Tom"; "Brady"] /\
  exists k p qb rb wr dline oline,
    (df_k Sample.loaded, df_p Sample.loaded, df_qb Sample.loaded,
     df_rb Sample.loaded, df_wr Sample.loaded, df_dline Sample.loaded,
     df_oline Sample.loaded)
    = (Some k, Some p, Some qb, Some rb, Some wr, Some dline, Some oline) /\
    dl_list Sample.loaded = Bound (Some [k; p; qb; rb; wr; dline; oline]) /\
    let name_combo := title "Brady" ++ ", " ++ title "Tom" in
    let df_list := [k; p; qb; rb; wr; dline; oline] in
    match find (name_check name_combo) df_list with
    | Some df =>
        for_df_single name_combo df_list None = Some df /\
        CalculatePlayerPoints Sample.float_of_digits
          (PlayerProfile_init "Tom Brady") df_list LeagueSettings_init false true
        = CalculatePlayerPoints Sample.float_of_digits
            (PlayerProfile_init "Tom Brady") [df] LeagueSettings_init false true
    | None =>
        for_df_single name_combo df_list None = Some oline /\
        CalculatePlayerPoints Sample.float_of_digits
          (PlayerProfile_init "Tom Brady") df_list LeagueSettings_init false true
        = Ok {| name := "Tom Brady";
                league_points := Some {| years := []; points := [] |} |}
    end.
Proof.
  split; [reflexivity|]. split; [reflexivity|].
  apply (CalculatePlayerPoints_table_choice Sample.float_of_digits Sample.Data
           "Data" Sample.unloaded Sample.loaded (PlayerProfile_init "Tom Brady")
           LeagueSettings_init false true "Tom" "Brady");
    reflexivity.
Defined.

Lemma AddPlayer_frame_witness :
  AddPlayer Sample.float_of_digits "Tom Brady" Sample.loaded
  = (Ok Sample.brady, Sample.with_brady) /\
  players Sample.with_brady = (players Sample.loaded ++ [Some Sample.brady])%list /\
  name Sample.brady = "Tom Brady" /\
  league_settings Sample.with_brady = league_settings Sample.loaded /\
  dl_list Sample.with_brady = dl_list Sample.loaded /\
  (df_k Sample.with_brady, df_p Sample.with_brady, df_qb Sample.with_brady,
   df_rb Sample.with_brady, df_wr Sample.with_brady, df_dline Sample.with_brady,
   df_oline Sample.with_brady)
  = (df_k Sample.loaded, df_p Sample.loaded, df_qb Sample.loaded,
     df_rb Sample.loaded, df_wr Sample.loaded, df_dline Sample.loaded,
     df_oline Sample.loaded).
Proof.
  split; [reflexivity|].
  apply (AddPlayer_frame Sample.float_of_digits "Tom Brady" Sample.loaded
           Sample.with_brady Sample.brady).
  reflexivity.
Defined.

Lemma CalculatePlayerPoints_years_witness :
  split_maxsplit1 (name (PlayerProfile_init "Tom Brady")) = ["Tom"; "Brady"] /\
  find (name_check (title "Brady" ++ ", " ++ title "Tom")) Sample.tables
  = Some Sample.quarterbacks /\
  numeric_rows Sample.float_of_digits (stat_columns Sample.quarterbacks)
    (df_player (title "Brady" ++ ", " ++ title "Tom") true false
               Sample.quarterbacks) = true /\
  exists series,
    CalculatePlayerPoints Sample.float_of_digits (PlayerProfile_init "Tom Brady")
      Sample.tables LeagueSettings_init true false
    = Ok {| name := "Tom Brady"; league_points := Some series |} /\
    List.length (points series) = List.length (years series) /\
    StronglySorted Z.lt (years series) /\
    NoDup (years series) /\
    forall y, In y (years series) <->
      exists r,
        In r (filter (check_bool (title "Brady" ++ ", " ++ title "Tom") true false)
                     (rows Sample.quarterbacks)) /\
        Year r = y.
Proof.
  split; [reflexivity|]. split; [reflexivity|]. split; [reflexivity|].
  apply (CalculatePlayerPoints_years Sample.float_of_digits
           (PlayerProfile_init "Tom Brady") Sample.tables LeagueSettings_init
           true false "Tom" "Brady" Sample.quarterbacks);
    reflexivity.
Defined.

Lemma no_data_adds_zero_witness :
  let stats := [("Games Started", 2%Q); ("Passing Yards", 398%Q);
                ("TD Passes", 2%Q); ("Ints", 0%Q); ("Rushing Yards", 10%Q)] in
  player_year_stats Sample.float_of_digits (stat_columns Sample.quarterbacks)
    (df_player "Brady, Tom" false true Sample.quarterbacks) 2014
  = Ok stats /\
  map fst stats = drop_exception_cols (stat_columns Sample.quarterbacks) /\
  Series_get "Longest Reception" stats = None /\
  Series_get "Longest Rushing Run" stats = None /\
  forall col, In col (map fst stats) ->
    exists total xs,
      Series_get col stats = Some total /\
      mapM (fun r => to_float Sample.float_of_digits (stat r col))
           (filter (fun r => negb (is_no_data (stat r col)))
              (filter (fun r => Year r =? 2014)%Z
                 (filter (check_bool "Brady, Tom" false true)
                         (rows Sample.quarterbacks))))
      = Ok xs /\
      total == Qsum xs.
Proof.
  intros stats.
  split; [vm_compute; reflexivity|].
  apply (no_data_adds_zero Sample.float_of_digits "Brady, Tom" false true
           Sample.quarterbacks 2014 stats).
  vm_compute; reflexivity.
Defined.

(** * Further properties of the code *)

(** ** Names *)

Lemma cut_at_space_Some (s a b : string) :
  cut_at_space s = Some (a, b) ->
  s = a ++ " " ++ b /\ ~ In " "%char (list_ascii_of_string a).
Proof.
  revert a. induction s as [|c s IH]; intros a; simpl; [discriminate|].
  destruct (Ascii.eqb c " ") eqn:E.
  - apply Ascii.eqb_eq in E. subst c. intros [= <- <-].
    split; [reflexivity | intros []].
  - apply Ascii.eqb_neq in E.
    destruct (cut_at_space s) as [[a' b']|]; [|discriminate].
    intros [= <- <-]. destruct (IH a' eq_refl) as [-> N].
    split; [reflexivity|]. simpl. intros [H|H]; [congruence | exact (N H)].
Qed.

(** X1: [name.split(' ', maxsplit=1)] cuts a name at its first space and
    nowhere else: a name with a space gives two parts, the first without a
    space, that joined by one space give the name back (so a name of three
    words splits in two); a name without a space gives the name alone. *)
Theorem split_maxsplit1_first_space (s : string) :
  (In " "%char (list_ascii_of_string s) /\
   exists a b, split_maxsplit1 s = [a; b] /\ s = a ++ " " ++ b /\
               ~ In " "%char (list_ascii_of_string a)) \/
  (~ In " "%char (list_ascii_of_string s) /\ split_maxsplit1 s = [s]).
Proof.
  destruct (split_maxsplit1_cases s) as [(a & b & C & E)|[C E]].
  - left. split.
    + destruct (in_dec ascii_dec " "%char (list_ascii_of_string s)) as [i|n];
        [exact i | apply cut_at_space_None in n; congruence].
    + exists a, b. split; [exact E|]. apply cut_at_space_Some, C.
  - right. split; [apply cut_at_space_None, C | exact E].
Qed.

Lemma to_upper_facts (c : ascii) :
  to_upper (to_upper c) = to_upper c /\
  to_lower (to_upper c) = to_lower c /\
  (is_lower (to_upper c) || is_upper (to_upper c)) = (is_lower c || is_upper c) /\
  Ascii.eqb (to_upper c) " " = Ascii.eqb c " ".
Proof.
  destruct c as [[] [] [] [] [] [] [] []]; vm_compute; repeat split.
Qed.

Lemma upper_upper (s : string) : upper (upper s) = upper s.
Proof.
  induction s as [|c s IH]; simpl; [reflexivity|].
  rewrite IH. f_equal. apply to_upper_facts.
Qed.

Lemma title_from_upper (b : bool) (s : string) :
  title_from b (upper s) = title_from b s.
Proof.
  revert b. induction s as [|c s IH]; intros b; simpl; [reflexivity|].
  destruct (to_upper_facts c) as (U & L & C & _).
  rewrite C, IH. destruct b; congruence.
Qed.

Lemma cut_at_space_upper (s : string) :
  cut_at_space (upper s) =
  match cut_at_space s with
  | Some (a, b) => Some (upper a, upper b)
  | None => None
  end.
Proof.
  induction s as [|c s IH]; simpl; [reflexivity|].
  destruct (to_upper_facts c) as (_ & _ & _ & E). rewrite E.
  destruct (Ascii.eqb c " "); [reflexivity|].
  rewrite IH. destruct (cut_at_space s) as [[a b]|]; reflexivity.
Qed.

(** The normalized name of a player, or the [ValueError] of the
    unpacking, depends on the name through its upper-cased form only. *)
Lemma name_combo_upper (n : string) :
  ('(first_name, last_name) <- unpack2 (split_maxsplit1 (upper n)) ;;
   Ok (title last_name ++ ", " ++ title first_name)) =
  ('(first_name, last_name) <- unpack2 (split_maxsplit1 n) ;;
   Ok (title last_name ++ ", " ++ title first_name)).
Proof.
  unfold split_maxsplit1. rewrite cut_at_space_upper.
  destruct (cut_at_space n) as [[a b]|]; cbn [unpack2 bind];
    [|reflexivity].
  unfold title. rewrite !title_from_upper. reflexivity.
Qed.

Section Further.

Set Default Proof Using "Type".

Variable float_of_str : string -> option Q.

(** [CalculatePlayerPoints] read through the normalized name. *)
Lemma CalculatePlayerPoints_by_name_combo (self : PlayerProfile)
    (df_list : list DataFrame) (settings : LeagueSettings)
    (include_post_season remove_week17 : bool) :
  CalculatePlayerPoints float_of_str self df_list settings
                        include_post_season remove_week17 =
  (name_combo <-
     ('(first_name, last_name) <- unpack2 (split_maxsplit1 (name self)) ;;
      Ok (title last_name ++ ", " ++ title first_name)) ;;
   match for_df_single name_combo df_list None with
   | None => Raise (UnboundLocalError "df_single")
   | Some df =>
       let df_player := df_player name_combo include_post_season remove_week17 df in
       let years := np_unique (map Year df_player) in
       points_per_year <-
         for_year float_of_str (stat_columns df) df_player settings years [] ;;
       Ok {| name := name self;
             league_points := Some {| years := years; points := points_per_year |} |}
   end).
Proof.
  unfold CalculatePlayerPoints.
  destruct (unpack2 (split_maxsplit1 (name self))) as [[f l]|e]; reflexivity.
Qed.

(** X2: for names of ASCII characters, on which [upper] and [title] are
    Python's, the lookup of a player does not depend on the case of the name
    given: two names with the same upper-cased form get the same outcome,
    the same series on success and the same exception on failure. *)
Theorem CalculatePlayerPoints_case_insensitive (self1 self2 : PlayerProfile)
    (df_list : list DataFrame) (settings : LeagueSettings)
    (include_post_season remove_week17 : bool) :
  is_ascii (name self1) = true ->
  is_ascii (name self2) = true ->
  upper (name self1) = upper (name self2) ->
  (p <- CalculatePlayerPoints float_of_str self1 df_list settings
          include_post_season remove_week17 ;; Ok (league_points p)) =
  (p <- CalculatePlayerPoints float_of_str self2 df_list settings
          include_post_season remove_week17 ;; Ok (league_points p)).
Proof.
  intros _ _ U. rewrite !CalculatePlayerPoints_by_name_combo.
  rewrite <- (name_combo_upper (name self1)), <- (name_combo_upper (name self2)), U.
  destruct (_ <- unpack2 (split_maxsplit1 (upper (name self2))) ;; _)
    as [name_combo|e]; cbn [bind]; [|reflexivity].
  destruct (for_df_single name_combo df_list None) as [df|]; [|reflexivity].
  destruct (for_year _ _ _ _ _ _); reflexivity.
Qed.

(** ** The outcomes of [CalculatePlayerPoints] *)

Lemma mapM_Raise {A B : Type} (f : A -> result B) (l : list A) (e : exception) :
  mapM f l = Raise e -> exists a, In a l /\ f a = Raise e.
Proof.
  induction l as [|a l IH]; simpl; [discriminate|].
  destruct (f a) as [b|e'] eqn:F; simpl.
  - destruct (mapM f l) as [bs|e'']; simpl; [discriminate|].
    intros [= ->]. destruct (IH eq_refl) as (x & I & X). eauto.
  - intros [= ->]. eauto.
Qed.

Lemma mapM_Ok_each {A B : Type} (f : A -> result B) (l : list A) (bs : list B) :
  mapM f l = Ok bs -> forall a, In a l -> exists b, f a = Ok b.
Proof.
  revert bs. induction l as [|a l IH]; intros bs; simpl; [intros _ x []|].
  destruct (f a) as [b|] eqn:F; simpl; [|discriminate].
  destruct (mapM f l) as [bs'|]; simpl; [|discriminate].
  intros _ x [<-|I]; [eauto | eapply IH; eauto].
Qed.

Lemma to_float_Raise (c : cell) (e : exception) :
  to_float float_of_str c = Raise e -> e = ValueError_float.
Proof.
  destruct c as [q|s]; simpl; [discriminate|].
  destruct (float_of_str s); [discriminate | congruence].
Qed.

(** A cell that does not convert after the replacement is a cell that is
    not the mark and does not convert before it. *)
Lemma to_float_replaced (c : cell) (e : exception) :
  to_float float_of_str (replace_no_data c) = Raise e ->
  is_no_data c = false /\ to_float float_of_str c = Raise e.
Proof.
  destruct c as [q|s]; simpl; [discriminate|].
  destruct (String.eqb s "--"); simpl; [discriminate | auto].
Qed.

Lemma player_year_stats_Raise (cols : list string) (rs : list Row) (year : Z)
    (e : exception) :
  player_year_stats float_of_str cols rs year = Raise e ->
  e = ValueError_float /\
  exists r col,
    In r rs /\ Year r = year /\ In col (drop_exception_cols cols) /\
    to_float float_of_str (stat r col) = Raise ValueError_float.
Proof.
  unfold player_year_stats, astype_float.
  destruct (mapM _ (drop_exception_cols cols)) as [fr|e'] eqn:M; simpl;
    [discriminate|].
  intros [= ->]. apply mapM_Raise in M. destruct M as (col & I & M).
  destruct (mapM _ (filter _ rs)) as [xs|e'] eqn:R; simpl in M; [discriminate|].
  injection M as ->. apply mapM_Raise in R. destruct R as (r & J & R).
  apply filter_In in J. destruct J as [J Y]. apply Z.eqb_eq in Y.
  pose proof (to_float_Raise _ _ R) as ->.
  split; [reflexivity|]. exists r, col. auto.
Qed.

Lemma player_year_stats_Ok (cols : list string) (rs : list Row) (year : Z)
    (stats : list (string * Q)) :
  player_year_stats float_of_str cols rs year = Ok stats ->
  forall r col,
    In r rs -> Year r = year -> In col (drop_exception_cols cols) ->
    exists q, to_float float_of_str (stat r col) = Ok q.
Proof.
  unfold player_year_stats, astype_float.
  destruct (mapM _ (drop_exception_cols cols)) as [fr|] eqn:M; simpl;
    [|discriminate].
  intros _ r col I Y C.
  destruct (mapM_Ok_each _ _ _ M col C) as [cx X].
  destruct (mapM _ (filter _ rs)) as [xs|] eqn:R; simpl in X; [|discriminate].
  apply (mapM_Ok_each _ _ _ R r). apply filter_In. split; [exact I|].
  apply Z.eqb_eq, Y.
Qed.

Lemma for_year_Raise (cols : list string) (rs : list Row)
    (settings : LeagueSettings) (ys : list Z) (acc : list Q) (e : exception) :
  for_year float_of_str cols rs settings ys acc = Raise e ->
  exists y, In y ys /\ player_year_stats float_of_str cols rs y = Raise e.
Proof.
  revert acc. induction ys as [|y ys IH]; intros acc; simpl; [discriminate|].
  destruct (player_year_stats float_of_str cols rs y) as [stats|e'] eqn:P; simpl.
  - intros H. destruct (IH _ H) as (y' & I & R). eauto.
  - intros [= ->]. eauto.
Qed.

Lemma for_year_Ok_each (cols : list string) (rs : list Row)
    (settings : LeagueSettings) (ys : list Z) (acc pts : list Q) :
  for_year float_of_str cols rs settings ys acc = Ok pts ->
  forall y, In y ys ->
    exists stats, player_year_stats float_of_str cols rs y = Ok stats.
Proof.
  revert acc. induction ys as [|y ys IH]; intros acc; simpl; [intros _ y []|].
  destruct (player_year_stats float_of_str cols rs y) as [stats|] eqn:P; simpl;
    [|discriminate].
  intros H y' [<-|I]; [eauto | eapply IH; eauto].
Qed.

(** The points of a returned series, year by year. *)
Lemma for_year_scores (cols : list string) (rs : list Row)
    (settings : LeagueSettings) (ys : list Z) (acc pts : list Q) :
  for_year float_of_str cols rs settings ys acc = Ok pts ->
  exists new,
    pts = (acc ++ new)%list /\
    Forall2 (fun y pt =>
               exists stats,
                 player_year_stats float_of_str cols rs y = Ok stats /\
                 pt = score stats settings)
            ys new.
Proof.
  revert acc. induction ys as [|y ys IH]; intros acc; simpl.
  - intros [= <-]. exists []. split; [symmetry; apply app_nil_r | constructor].
  - destruct (player_year_stats float_of_str cols rs y) as [stats|] eqn:P;
      simpl; [|discriminate].
    intros H. destruct (IH _ H) as (new & -> & F).
    exists (score stats settings :: new). split.
    + rewrite <- app_assoc. reflexivity.
    + constructor; [eauto | exact F].
Qed.

Lemma for_df_single_bound (name_combo : string) (df_list : list DataFrame)
    (d : DataFrame) :
  exists df, for_df_single name_combo df_list (Some d) = Some df.
Proof.
  revert d. induction df_list as [|d' l IH]; intros d; simpl; [eauto|].
  destruct (name_check name_combo d'); [eauto | apply IH].
Qed.

Lemma for_df_single_None (name_combo : string) (df_list : list DataFrame) :
  for_df_single name_combo df_list None = None -> df_list = [].
Proof.
  destruct df_list as [|d l]; [reflexivity|]. simpl.
  destruct (name_check name_combo d); [discriminate|].
  destruct (for_df_single_bound name_combo l d) as [df ->]. discriminate.
Qed.

Lemma CalculatePlayerPoints_Raise_kind (self : PlayerProfile)
    (df_list : list DataFrame) (settings : LeagueSettings)
    (include_post_season remove_week17 : bool) (e : exception) :
  CalculatePlayerPoints float_of_str self df_list settings
                        include_post_season remove_week17 = Raise e ->
  e = ValueError_unpack \/
  (e = UnboundLocalError "df_single" /\ df_list = []) \/
  e = ValueError_float.
Proof.
  unfold CalculatePlayerPoints.
  destruct (unpack2 _) as [[f l]|e'] eqn:U; cbn [bind]; [|intros H].
  - destruct (for_df_single _ df_list None) as [df|] eqn:D.
    + destruct (for_year _ _ _ _ _ _) as [pts|e'] eqn:Y; [discriminate|].
      intros [= ->]. right. right.
      apply for_year_Raise in Y. destruct Y as (y & _ & Y).
      apply player_year_stats_Raise in Y. apply Y.
    + intros [= <-]. right. left. split; [reflexivity|].
      eapply for_df_single_None, D.
  - left. injection H as <-. unfold unpack2 in U.
    destruct (split_maxsplit1 (name self)) as [|a [|b [|c r]]]; congruence.
Qed.

(** X3: [CalculatePlayerPoints] raises in three cases only: the
    [ValueError] of the unpacking for a name without a space; an
    [UnboundLocalError] when the list of tables is empty; the [ValueError]
    of [astype(float)] when a row kept for the player holds, in a summed
    column, a cell that is not the mark ['--'] and that [float] refuses. *)
Theorem CalculatePlayerPoints_raises (self : PlayerProfile)
    (df_list : list DataFrame) (settings : LeagueSettings)
    (include_post_season remove_week17 : bool) (e : exception) :
  CalculatePlayerPoints float_of_str self df_list settings
                        include_post_season remove_week17 = Raise e ->
  (e = ValueError_unpack /\ ~ In " "%char (list_ascii_of_string (name self))) \/
  (e = UnboundLocalError "df_single" /\ df_list = []) \/
  (e = ValueError_float /\
   exists first_name last_name df r col,
     split_maxsplit1 (name self) = [first_name; last_name] /\
     for_df_single (title last_name ++ ", " ++ title first_name) df_list None
     = Some df /\
     In r (filter (check_bool (title last_name ++ ", " ++ title first_name)
                              include_post_season remove_week17) (rows df)) /\
     In col (drop_exception_cols (stat_columns df)) /\
     is_no_data (stat r col) = false /\
     to_float float_of_str (stat r col) = Raise ValueError_float).
Proof.
  unfold CalculatePlayerPoints.
  destruct (split_maxsplit1_cases (name self)) as [(f & l & _ & S)|[C S]];
    rewrite S; cbv beta iota delta [unpack2 bind].
  - destruct (for_df_single _ df_list None) as [df|] eqn:D.
    + destruct (for_year _ _ _ _ _ _) as [pts|e'] eqn:Y; [discriminate|].
      intros [= ->]. right. right.
      apply for_year_Raise in Y. destruct Y as (y & _ & Y).
      apply player_year_stats_Raise in Y. destruct Y as (-> & r' & col & I & _ & C & T).
      split; [reflexivity|].
      unfold df_player in I. apply in_map_iff in I. destruct I as (r & <- & I).
      apply to_float_replaced in T. destruct T as [N T].
      exists f, l, df, r, col. auto 10.
    + intros [= <-]. right. left. split; [reflexivity|].
      eapply for_df_single_None, D.
  - intros [= <-]. left. split; [reflexivity | apply cut_at_space_None, C].
Qed.

(** X4: [CalculatePlayerPoints] returns exactly when the name splits in
    two, the list of tables is not empty, and the rows kept in the table
    the search ends on convert in every summed column. *)
Theorem CalculatePlayerPoints_returns (self : PlayerProfile)
    (df_list : list DataFrame) (settings : LeagueSettings)
    (include_post_season remove_week17 : bool) :
  (exists p, CalculatePlayerPoints float_of_str self df_list settings
               include_post_season remove_week17 = Ok p) <->
  (exists first_name last_name df,
     split_maxsplit1 (name self) = [first_name; last_name] /\
     for_df_single (title last_name ++ ", " ++ title first_name) df_list None
     = Some df /\
     numeric_rows float_of_str (stat_columns df)
       (df_player (title last_name ++ ", " ++ title first_name)
                  include_post_season remove_week17 df) = true).
Proof.
  unfold CalculatePlayerPoints. split.
  - intros [p H].
    destruct (split_maxsplit1_cases (name self)) as [(f & l & _ & S)|[C S]];
      rewrite S in H; cbv beta iota delta [unpack2 bind] in H; [|discriminate].
    destruct (for_df_single _ df_list None) as [df|] eqn:D; [|discriminate].
    destruct (for_year _ _ _ _ _ _) as [pts|] eqn:Y; [|discriminate].
    exists f, l, df. split; [exact S|]. split; [exact D|].
    destruct (numeric_rows _ _ _) eqn:N; [reflexivity|]. exfalso.
    unfold numeric_rows in N.
    assert (A : forall r col,
               In r (df_player (title l ++ ", " ++ title f)
                               include_post_season remove_week17 df) ->
               In col (drop_exception_cols (stat_columns df)) ->
               numeric_cell float_of_str (stat r col) = true).
    { intros r col I C. unfold numeric_cell.
      assert (J : In (Year r)
                    (np_unique (map Year (df_player (title l ++ ", " ++ title f)
                       include_post_season remove_week17 df))))
        by (apply np_unique_In, in_map, I).
      destruct (for_year_Ok_each _ _ _ _ _ _ Y _ J) as [stats P].
      destruct (player_year_stats_Ok _ _ _ _ P r col I eq_refl C) as [q ->].
      reflexivity. }
    assert (forallb (fun r => forallb (fun col => numeric_cell float_of_str (stat r col))
                       (drop_exception_cols (stat_columns df)))
              (df_player (title l ++ ", " ++ title f)
                         include_post_season remove_week17 df) = true);
      [|congruence].
    apply forallb_forall. intros r I. apply forallb_forall. intros col C.
    apply A; assumption.
  - intros (f & l & df & S & D & N). rewrite S.
    cbv beta iota delta [unpack2 bind]. rewrite D.
    destruct (for_year_Ok float_of_str _ _ settings
                (np_unique (map Year (df_player (title l ++ ", " ++ title f)
                   include_post_season remove_week17 df))) [] N) as (pts & -> & _).
    eexists. reflexivity.
Qed.

(** X5: in a returned series the years are the sorted distinct years of
    the kept rows and the points entry of a year is the score, under the
    settings given, of that year's column totals. *)
Theorem CalculatePlayerPoints_points (self p : PlayerProfile)
    (df_list : list DataFrame) (settings : LeagueSettings)
    (include_post_season remove_week17 : bool) :
  CalculatePlayerPoints float_of_str self df_list settings
                        include_post_season remove_week17 = Ok p ->
  exists first_name last_name df series,
    split_maxsplit1 (name self) = [first_name; last_name] /\
    for_df_single (title last_name ++ ", " ++ title first_name) df_list None
    = Some df /\
    league_points p = Some series /\
    let kept := df_player (title last_name ++ ", " ++ title first_name)
                          include_post_season remove_week17 df in
    years series = np_unique (map Year kept) /\
    Forall2 (fun y pt =>
               exists stats,
                 player_year_stats float_of_str (stat_columns df) kept y = Ok stats /\
                 pt = score stats settings)
            (years series) (points series).
Proof.
  unfold CalculatePlayerPoints. intros H.
  destruct (split_maxsplit1_cases (name self)) as [(f & l & _ & S)|[C S]];
    rewrite S in H; cbv beta iota delta [unpack2 bind] in H; [|discriminate].
  destruct (for_df_single _ df_list None) as [df|] eqn:D; [|discriminate].
  destruct (for_year _ _ _ _ _ _) as [pts|] eqn:Y; [|discriminate].
  injection H as <-.
  apply for_year_scores in Y. destruct Y as (new & -> & F).
  do 4 eexists. split; [exact S|]. split; [exact D|]. split; [reflexivity|].
  split; [reflexivity | exact F].
Qed.

(** ** The week-17 filter *)

Lemma filter_andb {A : Type} (p q : A -> bool) (l : list A) :
  filter (fun a => p a && q a) l = filter q (filter p l).
Proof.
  induction l as [|a l IH]; simpl; [reflexivity|].
  destruct (p a); simpl; [destruct (q a); rewrite IH; reflexivity | exact IH].
Qed.

(** X6: with [remove_week17] the rows kept are the rows kept without it
    minus those of week 17, whatever their season: no row of week 17 is
    kept, be it a "Regular Season" or a "Postseason" one. *)
Theorem remove_week17_drops_week17 (name_combo : string)
    (include_post_season : bool) (df : DataFrame) :
  let kept := fun remove_week17 =>
    filter (check_bool name_combo include_post_season remove_week17) (rows df) in
  kept true = filter (fun r => negb (Week r =? 17)%Z) (kept false) /\
  (forall r, In r (kept true) -> Week r <> 17%Z) /\
  incl (kept true) (kept false).
Proof.
  intros kept.
  assert (E : kept true = filter (fun r => negb (Week r =? 17)%Z) (kept false)).
  { unfold kept. rewrite <- filter_andb. apply filter_ext. intros r.
    unfold check_bool. reflexivity. }
  split; [exact E|]. rewrite E. split.
  - intros r I. apply filter_In in I. destruct I as [_ W].
    apply negb_true_iff, Z.eqb_neq in W. exact W.
  - intros r I. apply filter_In in I. apply I.
Qed.

(** ** The score of a year *)

Lemma Qsum_app (xs ys : list Q) : Qsum (xs ++ ys) == Qsum xs + Qsum ys.
Proof.
  induction xs as [|x xs IH]; simpl.
  - unfold Qsum at 2. simpl. ring.
  - rewrite !Qsum_cons, IH. ring.
Qed.

Lemma score_fold (stats : list (string * Q)) (settings : LeagueSettings) (a : Q) :
  fold_left
    (fun points kv =>
       match Series_get (title (replace_char "_"%char " "%char (fst kv))) stats with
       | Some total => points + total * snd kv
       | None => points
       end)
    settings a
  == a + Qsum (map (fun kv =>
                      match Series_get (title (category (fst kv))) stats with
                      | Some total => total * snd kv
                      | None => 0
                      end) settings).
Proof.
  revert a. induction settings as [|kv settings IH]; intros a; simpl.
  - unfold Qsum. simpl. ring.
  - rewrite IH, Qsum_cons. unfold category.
    destruct (Series_get _ stats); ring.
Qed.

(** X7: the points of a year are the sum, over the attributes of the
    settings, of total times weight for the attributes whose title-cased
    name is a column of the totals; an attribute without such a column
    adds nothing. *)
Theorem score_weighted_sum (stats : list (string * Q)) (settings : LeagueSettings) :
  score stats settings
  == Qsum (map (fun kv =>
                  match Series_get (title (category (fst kv))) stats with
                  | Some total => total * snd kv
                  | None => 0
                  end) settings).
Proof.
  unfold score. rewrite score_fold. ring.
Qed.

Lemma player_year_stats_labels (cols : list string) (rs : list Row) (year : Z)
    (stats : list (string * Q)) :
  player_year_stats float_of_str cols rs year = Ok stats ->
  map fst stats = drop_exception_cols cols.
Proof.
  unfold player_year_stats.
  destruct (astype_float _ _ _) as [fr|] eqn:A; simpl; [|discriminate].
  intros [= <-].
  apply astype_float_columns, DataFrame_sum_get in A. apply A.
Qed.

Lemma drop_exception_cols_not_In (cols : list string) (col : string) :
  In col exception_cols -> ~ In col (drop_exception_cols cols).
Proof.
  intros I H. unfold drop_exception_cols in H. apply filter_In in H.
  destruct H as [_ H]. apply negb_true_iff in H.
  assert (existsb (String.eqb col) exception_cols = true); [|congruence].
  apply existsb_exists. exists col. split; [exact I | apply String.eqb_refl].
Qed.

(** X8: a settings attribute whose title-cased name is "Longest
    Reception" or "Longest Rushing Run" never counts: whatever its weight,
    the points of every year are the points without it. *)
Theorem exception_cols_never_score (name_combo : string)
    (include_post_season remove_week17 : bool) (df : DataFrame) (year : Z)
    (stats : list (string * Q)) (key : string) (weight : Q)
    (before after : LeagueSettings) :
  player_year_stats float_of_str (stat_columns df)
    (df_player name_combo include_post_season remove_week17 df) year
  = Ok stats ->
  In (title (category key)) exception_cols ->
  score stats (before ++ (key, weight) :: after)%list
  == score stats (before ++ after)%list.
Proof.
  intros P I. unfold score. rewrite !score_fold, !map_app. simpl.
  rewrite !Qsum_app, Qsum_cons.
  rewrite (Series_get_None (title (category key)) stats).
  - ring.
  - rewrite (player_year_stats_labels _ _ _ _ P).
    apply drop_exception_cols_not_In, I.
Qed.

(** ** Adding players *)

Lemma AddPlayer_unfold (player_name : string) (self : FFBAnalyzer) :
  AddPlayer float_of_str player_name self =
  match dl_list self with
  | Unset => (Raise (AttributeError "dl_list"), self)
  | Bound None => (Raise NameError_not_loaded, self)
  | Bound (Some df_list) =>
      match CalculatePlayerPoints float_of_str (PlayerProfile_init player_name)
              df_list (league_settings self) false true with
      | Raise e => (Raise e, self)
      | Ok player => (Ok player, set_players (players self ++ [Some player]) self)
      end
  end.
Proof.
  unfold AddPlayer, then_, self_dl_list, eval, raise.
  destruct (dl_list self) as [|[df_list|]]; reflexivity.
Qed.

Lemma AddPlayer_cases (player_name : string) (self : FFBAnalyzer) :
  (exists e, AddPlayer float_of_str player_name self = (Raise e, self)) \/
  (exists df_list player,
     dl_list self = Bound (Some df_list) /\
     CalculatePlayerPoints float_of_str (PlayerProfile_init player_name) df_list
       (league_settings self) false true = Ok player /\
     AddPlayer float_of_str player_name self
     = (Ok player, set_players (players self ++ [Some player]) self)).
Proof.
  unfold AddPlayer, then_, self_dl_list, eval, raise.
  destruct (dl_list self) as [|[df_list|]] eqn:D; [left; eauto | | left; eauto].
  destruct (CalculatePlayerPoints _ _ _ _ _ _) as [player|e] eqn:C;
    [right | left; eauto].
  exists df_list, player. auto.
Qed.

(** X9: an [AddPlayer] that raises leaves the registry exactly as it was:
    no profile is stored for a name whose calculation fails. *)
Theorem AddPlayer_raises_unchanged (player_name : string)
    (self self' : FFBAnalyzer) (e : exception) :
  AddPlayer float_of_str player_name self = (Raise e, self') -> self' = self.
Proof.
  destruct (AddPlayer_cases player_name self)
    as [[e' ->]|(df_list & player & _ & _ & ->)];
    [intros [= _ <-]; reflexivity | discriminate].
Qed.

(** X10: names are not deduplicated: adding again a name that was added
    successfully succeeds with the same profile and stores it a second
    time at the end of [players]. *)
Theorem AddPlayer_twice (player_name : string) (self self' : FFBAnalyzer)
    (player : PlayerProfile) :
  AddPlayer float_of_str player_name self = (Ok player, self') ->
  AddPlayer float_of_str player_name self'
  = (Ok player, set_players (players self ++ [Some player; Some player]) self).
Proof.
  destruct (AddPlayer_cases player_name self)
    as [[e ->]|(df_list & p & D & C & ->)]; [discriminate|].
  intros [= <- <-]. rewrite AddPlayer_unfold.
  cbn [dl_list set_players league_settings players]. rewrite D, C.
  unfold set_players. cbn [players league_settings df_dline df_oline df_k df_p
                           df_qb df_rb df_wr dl_list].
  rewrite <- app_assoc. reflexivity.
Qed.

(** X11: on a registry with tables, a name that splits in two and that no
    table holds is added all the same, with an empty series. *)
Theorem AddPlayer_unknown_name (player_name first_name last_name : string)
    (self : FFBAnalyzer) (d : DataFrame) (df_list : list DataFrame) :
  dl_list self = Bound (Some (d :: df_list)) ->
  split_maxsplit1 player_name = [first_name; last_name] ->
  (forall df, In df (d :: df_list) ->
     name_check (title last_name ++ ", " ++ title first_name) df = false) ->
  let player := {| name := player_name;
                   league_points := Some {| years := []; points := [] |} |} in
  AddPlayer float_of_str player_name self
  = (Ok player, set_players (players self ++ [Some player]) self).
Proof.
  intros D S A player.
  assert (F : find (name_check (title last_name ++ ", " ++ title first_name))
                (d :: df_list) = None).
  { destruct (find _ (d :: df_list)) as [df|] eqn:F; [|reflexivity].
    apply find_some in F. destruct F as [I N]. rewrite (A df I) in N. discriminate. }
  destruct (CalculatePlayerPoints_absent float_of_str
              (PlayerProfile_init player_name) d df_list (league_settings self)
              false true first_name last_name S F) as [_ C].
  rewrite AddPlayer_unfold, D, C. reflexivity.
Qed.

(** ** Changing the settings, in general *)

Lemma for_player_update_cases (self : FFBAnalyzer)
    (todo players_new : list (option PlayerProfile)) :
  (todo = [] /\ for_player_update float_of_str todo players_new self
                = (Ok players_new, self)) \/
  (todo <> [] /\ exists e, for_player_update float_of_str todo players_new self
                           = (Raise e, self)).
Proof.
  destruct todo as [|[player|] todo]; [left; split; reflexivity | |].
  - right. split; [discriminate|]. cbn [for_player_update].
    unfold then_, self_dl_list, eval.
    destruct (dl_list self) as [|v]; eexists; reflexivity.
  - right. split; [discriminate|]. eexists. reflexivity.
Qed.

Lemma UpdatePlayerScores_state (self : FFBAnalyzer) :
  snd (UpdatePlayerScores float_of_str self) = self /\
  (fst (UpdatePlayerScores float_of_str self) = Ok tt <-> players self = []).
Proof.
  unfold UpdatePlayerScores, then_, assign.
  destruct (for_player_update_cases self (players self) []) as [[E ->]|[N [e ->]]].
  - rewrite E. destruct self; simpl in *; subst. split; [reflexivity | tauto].
  - simpl. split; [reflexivity|]. split; [discriminate | tauto].
Qed.

Lemma ChangeLeagueSettings_state (new_league_settings : LeagueSettings)
    (self : FFBAnalyzer) :
  snd (ChangeLeagueSettings float_of_str new_league_settings self)
  = set_league_settings new_league_settings self /\
  (fst (ChangeLeagueSettings float_of_str new_league_settings self) = Ok tt
   <-> players self = []).
Proof.
  unfold ChangeLeagueSettings, then_, assign.
  destruct (UpdatePlayerScores_state (set_league_settings new_league_settings self))
    as [S F].
  cbn [players set_league_settings] in F.
  destruct (UpdatePlayerScores _ _) as [[[]|e] s]; simpl in *;
    (split; [congruence | exact F]).
Qed.

(** X12: [UpdatePlayerScores] never changes the registry and
    [ChangeLeagueSettings] changes the settings only: the stored profiles
    are never recomputed.  Both return normally exactly when no player is
    stored, and raise otherwise. *)
Theorem ChangeLeagueSettings_effect (new_league_settings : LeagueSettings)
    (self : FFBAnalyzer) :
  snd (UpdatePlayerScores float_of_str self) = self /\
  snd (ChangeLeagueSettings float_of_str new_league_settings self)
  = set_league_settings new_league_settings self /\
  (fst (UpdatePlayerScores float_of_str self) = Ok tt <-> players self = []) /\
  (fst (ChangeLeagueSettings float_of_str new_league_settings self) = Ok tt
   <-> players self = []).
Proof.
  destruct (UpdatePlayerScores_state self) as [U1 U2].
  destruct (ChangeLeagueSettings_state new_league_settings self) as [C1 C2].
  auto.
Qed.

(** ** Plotting *)

Lemma CalculatePlayerPoints_computed (self p : PlayerProfile)
    (df_list : list DataFrame) (settings : LeagueSettings)
    (include_post_season remove_week17 : bool) :
  CalculatePlayerPoints float_of_str self df_list settings
                        include_post_season remove_week17 = Ok p ->
  computed (Some p).
Proof.
  unfold CalculatePlayerPoints. intros C.
  destruct (unpack2 _) as [[f l]|]; cbn [bind] in C; [|discriminate].
  destruct (for_df_single _ _ _) as [df|]; [|discriminate].
  destruct (for_year _ _ _ _ _ _) as [pts|] eqn:Y; cbn [bind] in C; [|discriminate].
  injection C as <-. unfold computed. do 2 eexists.
  split; [reflexivity|]. split; [reflexivity|]. cbn [years points]. split.
  - apply for_year_length in Y. exact Y.
  - apply np_unique_sorted.
Qed.

Lemma computed_app (l : list (option PlayerProfile)) (p : PlayerProfile) :
  Forall computed l -> computed (Some p) -> Forall computed (l ++ [Some p]).
Proof.
  intros F C. apply Forall_app. split; [exact F | constructor; [exact C | constructor]].
Qed.

Lemma mapM_entry_name_app (l : list (option PlayerProfile)) (stored : list string)
    (p : PlayerProfile) :
  mapM entry_name l = Ok stored ->
  mapM entry_name (l ++ [Some p]) = Ok (stored ++ [name p])%list.
Proof.
  revert stored. induction l as [|e l IH]; intros stored; simpl.
  - intros [= <-]. reflexivity.
  - destruct (entry_name e) as [n|]; simpl; [|discriminate].
    destruct (mapM entry_name l) as [ns|]; simpl; [|discriminate].
    intros [= <-]. rewrite (IH ns eq_refl). reflexivity.
Qed.

(** What the search loop finds, for a list of entries that all have a
    name. *)
Lemma for_player_search_find (player_name : string)
    (l : list (option PlayerProfile)) (stored : list string) :
  mapM entry_name l = Ok stored ->
  for_player_search player_name l None
  = Ok (match find (named player_name) l with Some e => e | None => None end) /\
  existsb (String.eqb player_name) stored
  = (match find (named player_name) l with Some _ => true | None => false end) /\
  forall e, find (named player_name) l = Some e ->
            exists p, e = Some p /\ name p = player_name /\ In e l.
Proof.
  revert stored. induction l as [|e l IH]; intros stored; simpl.
  - intros [= <-]. repeat split. discriminate.
  - destruct e as [p|]; simpl; [|discriminate].
    destruct (mapM entry_name l) as [ns|]; simpl; [|discriminate].
    intros [= <-]. simpl. rewrite (String.eqb_sym player_name (name p)).
    destruct (String.eqb (name p) player_name) eqn:E.
    + repeat split. intros e [= <-]. apply String.eqb_eq in E. eauto.
    + destruct (IH ns eq_refl) as (S & X & F). rewrite S, X.
      repeat split. intros e H. destruct (F e H) as (q & -> & N & I). eauto.
Qed.

Lemma computed_named (l : list (option PlayerProfile)) :
  Forall computed l -> exists stored, mapM entry_name l = Ok stored.
Proof.
  induction 1 as [|e l (p & s & -> & _) _ [stored IH]]; simpl.
  - eauto.
  - rewrite IH. simpl. eauto.
Qed.

(** The loop over the names to plot, when it returns. *)
Lemma for_player_name_adds (player_names : list string) :
  forall (drawn out : list Line) (self self' : FFBAnalyzer) (stored : list string),
    Forall computed (players self) ->
    mapM entry_name (players self) = Ok stored ->
    for_player_name float_of_str player_names drawn self = (Returns out, self') ->
    exists added new,
      out = (drawn ++ new)%list /\
      map label new = player_names /\
      self' = set_players (players self ++ map Some added) self /\
      map name added = names_to_add stored player_names /\
      Forall computed (players self').
Proof.
  induction player_names as [|n ns IH]; intros drawn out self self' stored FC M H.
  - injection H as <- <-. exists [], []. rewrite !app_nil_r.
    repeat split; [destruct self; reflexivity | exact FC].
  - cbn [for_player_name] in H.
    destruct (for_player_search_find n (players self) stored M) as (S & X & F).
    rewrite S in H. cbn [names_to_add]. rewrite X.
    destruct (find (named n) (players self)) as [e|] eqn:Fd.
    + destruct (F e eq_refl) as (p & -> & N & I).
      rewrite Forall_forall in FC. destruct (FC _ I) as (p' & s & [= <-] & LP & _).
      rewrite LP in H. rewrite <- Forall_forall in FC.
      destruct (IH _ _ _ _ _ FC M H) as (added & new & -> & L & -> & A & C).
      exists added, (mkLine (years s) (points s) (name p) :: new).
      rewrite <- app_assoc. repeat split; try assumption.
      simpl. rewrite L, N. reflexivity.
    + rewrite AddPlayer_unfold in H.
      destruct (dl_list self) as [|[df_list|]]; try discriminate.
      destruct (CalculatePlayerPoints _ _ _ _ _ _) as [p|] eqn:C; [|discriminate].
      pose proof (CalculatePlayerPoints_name _ _ _ _ _ _ _ C) as N.
      cbn [name PlayerProfile_init] in N.
      pose proof (CalculatePlayerPoints_computed _ _ _ _ _ _ C) as CP.
      destruct CP as (p' & s & [= <-] & LP & Ls & Ss).
      rewrite LP in H.
      assert (FC' : Forall computed
                      (players (set_players (players self ++ [Some p]) self))).
      { cbn [players set_players]. apply computed_app; [exact FC|].
        exists p, s. auto. }
      assert (M' : mapM entry_name
                     (players (set_players (players self ++ [Some p]) self))
                   = Ok (stored ++ [n])%list).
      { cbn [players set_players]. rewrite <- N. apply mapM_entry_name_app, M. }
      destruct (IH _ _ _ _ _ FC' M' H) as (added & new & -> & L & -> & A & C').
      exists (p :: added), (mkLine (years s) (points s) (name p) :: new).
      rewrite <- app_assoc. repeat split.
      * simpl. rewrite L, N. reflexivity.
      * unfold set_players. cbn [players league_settings df_dline df_oline df_k
                                 df_p df_qb df_rb df_wr dl_list map].
        rewrite <- app_assoc. reflexivity.
      * simpl. rewrite A, N. reflexivity.
      * exact C'.
Qed.

(** X13: when [PlotPlayerPoints] is given names and returns, on a
    registry of computed profiles, it has plotted one line per name given,
    in order, and has added to the registry the names that were not
    stored, each once, in the order in which they first occur in the
    list; nothing else of the registry has changed. *)
Theorem PlotPlayerPoints_adds_missing (player_name_list : list string)
    (self self' : FFBAnalyzer) (fig : Figure) :
  Forall computed (players self) ->
  PlotPlayerPoints float_of_str (Some player_name_list) self = (Returns fig, self') ->
  exists stored added,
    mapM entry_name (players self) = Ok stored /\
    map label (lines fig) = player_name_list /\
    self' = set_players (players self ++ map Some added) self /\
    map name added = names_to_add stored player_name_list /\
    Forall computed (players self').
Proof.
  intros FC H. unfold PlotPlayerPoints in H.
  destruct (computed_named _ FC) as [stored M]. rewrite M in H.
  destruct (for_player_name _ _ _ _) as [[out|e] s] eqn:L; [|discriminate].
  injection H as <- <-.
  destruct (for_player_name_adds _ _ _ _ _ _ FC M L) as (added & new & -> & Lb & -> & A & C).
  exists stored, added. repeat split; assumption.
Qed.

(** The loop over the names to plot, when every name is stored. *)
Lemma for_player_name_stored (self : FFBAnalyzer)
    (todo : list (option PlayerProfile)) :
  Forall computed (players self) ->
  (forall e, In e todo -> In e (players self)) ->
  forall drawn,
  exists player_names new,
    mapM entry_name todo = Ok player_names /\
    for_player_name float_of_str player_names drawn self
    = (Returns (drawn ++ new)%list, self) /\
    Forall2 (fun entry line =>
               exists p q series,
                 entry = Some p /\
                 find (named (name p)) (players self) = Some (Some q) /\
                 league_points q = Some series /\
                 line = mkLine (years series) (points series) (name p))
            todo new.
Proof.
  intros FC. destruct (computed_named _ FC) as [stored M].
  induction todo as [|e todo IH]; intros I drawn.
  - exists [], []. rewrite app_nil_r. repeat split. constructor.
  - assert (Ie : In e (players self)) by (apply I; left; reflexivity).
    pose proof FC as FC'. rewrite Forall_forall in FC'.
    destruct (FC' e Ie) as (p & s & -> & _).
    destruct (for_player_search_find (name p) (players self) stored M) as (S & _ & F).
    destruct (find (named (name p)) (players self)) as [e'|] eqn:Fd.
    2:{ exfalso. apply (find_none _ _ Fd) in Ie. simpl in Ie.
        rewrite String.eqb_refl in Ie. discriminate. }
    destruct (F e' eq_refl) as (q & -> & N & Iq).
    destruct (FC' _ Iq) as (q' & sq & [= <-] & LP & _).
    destruct (IH (fun x Hx => I x (or_intror Hx))
                 (drawn ++ [mkLine (years sq) (points sq) (name q)])%list)
      as (ns & new & Mn & L & F2).
    exists (name p :: ns), (mkLine (years sq) (points sq) (name q) :: new).
    split; [simpl; rewrite Mn; reflexivity|]. split.
    + cbn [for_player_name]. rewrite S, LP, L, <- app_assoc. reflexivity.
    + constructor; [|exact F2]. exists p, q, sq. rewrite N. auto.
Qed.

(** X14: without a list of names, on a registry of computed profiles,
    [PlotPlayerPoints] returns and leaves the registry as it was; it plots
    one line per stored entry, in order, labelled with the entry's name
    and carrying the series of the first stored profile of that name, so
    that a name stored twice is drawn twice with the first series. *)
Theorem PlotPlayerPoints_default (self : FFBAnalyzer) :
  Forall computed (players self) ->
  exists fig,
    PlotPlayerPoints float_of_str None self = (Returns fig, self) /\
    Forall2 (fun entry line =>
               exists p q series,
                 entry = Some p /\
                 find (named (name p)) (players self) = Some (Some q) /\
                 league_points q = Some series /\
                 line = mkLine (years series) (points series) (name p))
            (players self) (lines fig).
Proof.
  intros FC.
  destruct (for_player_name_stored self (players self) FC (fun e H => H) [])
    as (ns & new & M & L & F).
  unfold PlotPlayerPoints. rewrite M, L. eexists. split; [reflexivity|].
  exact F.
Qed.

(** ** Loading *)

Section Reloading.

Variable read_csv : string -> option DataFrame.

(** X15: when the seven game logs of the directory can all be read,
    [LoadNflData] returns; it binds the seven table attributes to what was
    read and [dl_list] to the tables in the order kickers, punters,
    quarterbacks, running backs, receivers, defensive line, offensive
    line, and keeps the players and the settings. *)
Theorem LoadNflData_returns (filepath : string) (self : FFBAnalyzer) :
  (forall path, In path (game_log_paths filepath) -> read_csv path <> None) ->
  exists dline oline k p qb rb wr,
    (read_csv (path_join filepath DLINE_FILENAME),
     read_csv (path_join filepath OLINE_FILENAME),
     read_csv (path_join filepath KICKERS_FILENAME),
     read_csv (path_join filepath PUNTERS_FILENAME),
     read_csv (path_join filepath QUARTERBACKS_FILENAME),
     read_csv (path_join filepath RUNNINGBACKS_FILENAME),
     read_csv (path_join filepath WIDE_RECEIVERS_FILENAME))
    = (Some dline, Some oline, Some k, Some p, Some qb, Some rb, Some wr) /\
    LoadNflData read_csv filepath self
    = (Ok tt,
       mkFFBAnalyzer (players self) (league_settings self)
         (Some dline) (Some oline) (Some k) (Some p) (Some qb) (Some rb) (Some wr)
         (Bound (Some [k; p; qb; rb; wr; dline; oline]))).
Proof.
  intros H. unfold LoadNflData, then_, pd_read_csv, eval, assign.
  unfold game_log_paths in H. cbn [map In] in H.
  repeat match goal with
         | |- context [read_csv ?path] =>
             let E := fresh "E" in
             destruct (read_csv path) eqn:E;
               [|exfalso; apply (H path); [auto 10 | exact E]]
         end.
  do 7 eexists. split; reflexivity.
Qed.

(** X16: when [LoadNflData] raises, it is the [FileNotFoundError] of the
    first of the seven paths, in the order defensive line, offensive line,
    kickers, punters, quarterbacks, running backs, receivers, that cannot
    be read; [dl_list], the players and the settings are as before, so
    that a failed reload leaves the calculations on the old tables. *)
Theorem LoadNflData_raises (filepath : string) (self self' : FFBAnalyzer)
    (e : exception) :
  LoadNflData read_csv filepath self = (Raise e, self') ->
  dl_list self' = dl_list self /\
  players self' = players self /\
  league_settings self' = league_settings self /\
  exists before path after,
    game_log_paths filepath = (before ++ path :: after)%list /\
    (forall q, In q before -> read_csv q <> None) /\
    read_csv path = None /\
    e = FileNotFoundError path.
Proof.
  unfold LoadNflData, then_, pd_read_csv, eval, assign, game_log_paths.
  cbn [map].
  destruct (read_csv (path_join filepath DLINE_FILENAME)) eqn:E1.
  2:{ intros [= <- <-]. repeat split. exists []. do 2 eexists.
      split; [reflexivity|]. split; [intros q []|]. auto. }
  destruct (read_csv (path_join filepath OLINE_FILENAME)) eqn:E2.
  2:{ intros [= <- <-]. repeat split.
      exists [path_join filepath DLINE_FILENAME]. do 2 eexists.
      split; [reflexivity|]. split; [|auto].
      intros q I. repeat (destruct I as [<-|I]; [congruence|]). destruct I. }
  destruct (read_csv (path_join filepath KICKERS_FILENAME)) eqn:E3.
  2:{ intros [= <- <-]. repeat split.
      exists [path_join filepath DLINE_FILENAME; path_join filepath OLINE_FILENAME].
      do 2 eexists. split; [reflexivity|]. split; [|auto].
      intros q I. repeat (destruct I as [<-|I]; [congruence|]). destruct I. }
  destruct (read_csv (path_join filepath PUNTERS_FILENAME)) eqn:E4.
  2:{ intros [= <- <-]. repeat split.
      exists [path_join filepath DLINE_FILENAME; path_join filepath OLINE_FILENAME;
              path_join filepath KICKERS_FILENAME].
      do 2 eexists. split; [reflexivity|]. split; [|auto].
      intros q I. repeat (destruct I as [<-|I]; [congruence|]). destruct I. }
  destruct (read_csv (path_join filepath QUARTERBACKS_FILENAME)) eqn:E5.
  2:{ intros [= <- <-]. repeat split.
      exists [path_join filepath DLINE_FILENAME; path_join filepath OLINE_FILENAME;
              path_join filepath KICKERS_FILENAME;
              path_join filepath PUNTERS_FILENAME].
      do 2 eexists. split; [reflexivity|]. split; [|auto].
      intros q I. repeat (destruct I as [<-|I]; [congruence|]). destruct I. }
  destruct (read_csv (path_join filepath RUNNINGBACKS_FILENAME)) eqn:E6.
  2:{ intros [= <- <-]. repeat split.
      exists [path_join filepath DLINE_FILENAME; path_join filepath OLINE_FILENAME;
              path_join filepath KICKERS_FILENAME;
              path_join filepath PUNTERS_FILENAME;
              path_join filepath QUARTERBACKS_FILENAME].
      do 2 eexists. split; [reflexivity|]. split; [|auto].
      intros q I. repeat (destruct I as [<-|I]; [congruence|]). destruct I. }
  destruct (read_csv (path_join filepath WIDE_RECEIVERS_FILENAME)) eqn:E7.
  2:{ intros [= <- <-]. repeat split.
      exists [path_join filepath DLINE_FILENAME; path_join filepath OLINE_FILENAME;
              path_join filepath KICKERS_FILENAME;
              path_join filepath PUNTERS_FILENAME;
              path_join filepath QUARTERBACKS_FILENAME;
              path_join filepath RUNNINGBACKS_FILENAME].
      do 2 eexists. split; [reflexivity|]. split; [|auto].
      intros q I. repeat (destruct I as [<-|I]; [congruence|]). destruct I. }
  discriminate.
Qed.

(** ** Registries a program can reach *)

Lemma LoadNflData_state (filepath : string) (self : FFBAnalyzer) :
  players (snd (LoadNflData read_csv filepath self)) = players self /\
  (dl_list (snd (LoadNflData read_csv filepath self)) = dl_list self \/
   exists df_list,
     dl_list (snd (LoadNflData read_csv filepath self)) = Bound (Some df_list) /\
     List.length df_list = 7%nat).
Proof.
  unfold LoadNflData, then_, pd_read_csv, eval, assign.
  repeat match goal with
         | |- context [read_csv ?path] =>
             destruct (read_csv path); [|split; [reflexivity | left; reflexivity]]
         end.
  split; [reflexivity|]. right. eexists. split; reflexivity.
Qed.

Lemma AddPlayer_well_formed (player_name : string) (self : FFBAnalyzer) :
  well_formed self -> well_formed (snd (AddPlayer float_of_str player_name self)).
Proof.
  intros [T C].
  destruct (AddPlayer_cases player_name self)
    as [[e ->]|(df_list & p & D & P & ->)]; [split; assumption|].
  split.
  - right. destruct T as [[U _]|T]; [congruence | exact T].
  - cbn [snd players set_players]. apply computed_app; [exact C|].
    eapply CalculatePlayerPoints_computed, P.
Qed.

Lemma for_player_name_well_formed (player_names : list string) :
  forall (drawn : list Line) (self : FFBAnalyzer),
    well_formed self ->
    well_formed (snd (for_player_name float_of_str player_names drawn self)).
Proof.
  induction player_names as [|n ns IH]; intros drawn self W; [exact W|].
  cbn [for_player_name].
  destruct (for_player_search n (players self) None) as [[p|]|e]; [| |exact W].
  - destruct (league_points p); [apply IH, W | exact W].
  - pose proof (AddPlayer_well_formed n self W) as W'.
    destruct (AddPlayer float_of_str n self) as [[p|e] s]; cbn [snd] in W';
      [|exact W'].
    destruct (league_points p); [apply IH, W' | exact W'].
Qed.

Lemma after_well_formed (c : call) (self : FFBAnalyzer) :
  well_formed self -> well_formed (after float_of_str read_csv c self).
Proof.
  intros W. destruct c as [filepath| |settings|n|ns|l]; cbn [after].
  - destruct W as [T C].
    destruct (LoadNflData_state filepath self) as [P D]. split.
    + rewrite P. destruct D as [D|D]; [rewrite D; exact T | right; exact D].
    + rewrite P. exact C.
  - destruct (UpdatePlayerScores_state self) as [-> _]. exact W.
  - destruct (ChangeLeagueSettings_state settings self) as [-> _]. exact W.
  - apply AddPlayer_well_formed, W.
  - exact W.
  - unfold PlotPlayerPoints.
    destruct (mapM entry_name (players self)) as [added|e]; [|exact W].
    pose proof (for_player_name_well_formed
                  (match l with Some x => x | None => added end) [] self W) as W'.
    destruct (for_player_name _ _ _ _) as [[out|e] s]; exact W'.
Qed.

(** X17: every registry a program can hold, from a constructor call that
    returned and any sequence of calls of the public methods, returning or
    raising, has [dl_list] either missing, with no player stored, or bound
    to seven tables, and stores computed profiles only.  So on such a
    registry [AddPlayer] never raises the "not loaded" [NameError] of its
    guard, and never the [UnboundLocalError] of an empty list of
    tables. *)
Theorem reachable_well_formed (self : FFBAnalyzer) :
  reachable float_of_str read_csv self ->
  well_formed self /\
  forall player_name,
    fst (AddPlayer float_of_str player_name self) <> Raise NameError_not_loaded /\
    fst (AddPlayer float_of_str player_name self)
    <> Raise (UnboundLocalError "df_single").
Proof.
  intros R.
  assert (W : well_formed self).
  { induction R as [filepath settings self I|c self R IH].
    - destruct filepath as [filepath|]; cbn [FFBAnalyzer_init] in I.
      + destruct (LoadNflData_Ok read_csv _ _ _ I)
          as (k & p & qb & rb & wr & dline & oline & ->).
        split; [right; eexists; split; reflexivity | constructor].
      + injection I as <-. split; [left; split; reflexivity | constructor].
    - apply after_well_formed, IH. }
  split; [exact W|]. intros n. rewrite AddPlayer_unfold.
  destruct W as [[[-> _]|(df_list & -> & L)] _]; [split; discriminate|].
  destruct (CalculatePlayerPoints _ _ _ _ _ _) as [p|e] eqn:C;
    [split; discriminate|].
  cbn [fst].
  destruct (CalculatePlayerPoints_Raise_kind _ _ _ _ _ _ C) as [K|[[K N]|K]];
    subst e; split; try discriminate.
  subst df_list. discriminate L.
Qed.

End Reloading.

End Further.

(** ** Instances of the further properties *)

Lemma CalculatePlayerPoints_case_insensitive_witness :
  is_ascii (name (PlayerProfile_init "tom brady")) = true /\
  is_ascii (name (PlayerProfile_init "Tom Brady")) = true /\
  upper (name (PlayerProfile_init "tom brady"))
  = upper (name (PlayerProfile_init "Tom Brady")) /\
  (p <- CalculatePlayerPoints Sample.float_of_digits (PlayerProfile_init "tom brady")
          Sample.tables LeagueSettings_init false true ;; Ok (league_points p)) =
  (p <- CalculatePlayerPoints Sample.float_of_digits (PlayerProfile_init "Tom Brady")
          Sample.tables LeagueSettings_init false true ;; Ok (league_points p)).
Proof.
  split; [reflexivity|]. split; [reflexivity|]. split; [reflexivity|].
  apply (CalculatePlayerPoints_case_insensitive Sample.float_of_digits
           (PlayerProfile_init "tom brady") (PlayerProfile_init "Tom Brady"));
    reflexivity.
Defined.

Lemma CalculatePlayerPoints_raises_witness :
  CalculatePlayerPoints Sample.float_of_digits (PlayerProfile_init "Jerry Rice")
    [Sample2.receivers] LeagueSettings_init false true = Raise ValueError_float /\
  ((ValueError_float = ValueError_unpack /\
    ~ In " "%char (list_ascii_of_string (name (PlayerProfile_init "Jerry Rice")))) \/
   (ValueError_float = UnboundLocalError "df_single" /\ [Sample2.receivers] = []) \/
   (ValueError_float = ValueError_float /\
    exists first_name last_name df r col,
      split_maxsplit1 (name (PlayerProfile_init "Jerry Rice"))
      = [first_name; last_name] /\
      for_df_single (title last_name ++ ", " ++ title first_name)
        [Sample2.receivers] None = Some df /\
      In r (filter (check_bool (title last_name ++ ", " ++ title first_name)
                               false true) (rows df)) /\
      In col (drop_exception_cols (stat_columns df)) /\
      is_no_data (stat r col) = false /\
      to_float Sample.float_of_digits (stat r col) = Raise ValueError_float)).
Proof.
  split; [reflexivity|].
  apply (CalculatePlayerPoints_raises Sample.float_of_digits
           (PlayerProfile_init "Jerry Rice") [Sample2.receivers]
           LeagueSettings_init false true ValueError_float).
  reflexivity.
Defined.

Lemma CalculatePlayerPoints_points_witness :
  CalculatePlayerPoints Sample.float_of_digits (PlayerProfile_init "Tom Brady")
    Sample.tables LeagueSettings_init false true = Ok Sample.brady /\
  exists first_name last_name df series,
    split_maxsplit1 (name (PlayerProfile_init "Tom Brady"))
    = [first_name; last_name] /\
    for_df_single (title last_name ++ ", " ++ title first_name) Sample.tables None
    = Some df /\
    league_points Sample.brady = Some series /\
    let kept := df_player (title last_name ++ ", " ++ title first_name)
                          false true df in
    years series = np_unique (map Year kept) /\
    Forall2 (fun y pt =>
               exists stats,
                 player_year_stats Sample.float_of_digits (stat_columns df) kept y
                 = Ok stats /\
                 pt = score stats LeagueSettings_init)
            (years series) (points series).
Proof.
  split; [reflexivity|].
  apply (CalculatePlayerPoints_points Sample.float_of_digits
           (PlayerProfile_init "Tom Brady") Sample.brady Sample.tables
           LeagueSettings_init false true).
  reflexivity.
Defined.

Lemma exception_cols_never_score_witness :
  let stats := [("Games Started", 2%Q); ("Passing Yards", 398%Q);
                ("TD Passes", 2%Q); ("Ints", 0%Q); ("Rushing Yards", 10%Q)] in
  player_year_stats Sample.float_of_digits (stat_columns Sample.quarterbacks)
    (df_player "Brady, Tom" false true Sample.quarterbacks) 2014
  = Ok stats /\
  In (title (category "longest_rushing_run")) exception_cols /\
  score stats ([("passing_yards", 0.04%Q)]
               ++ ("longest_rushing_run", 100%Q) :: [("rushing_yards", 0.1%Q)])%list
  == score stats ([("passing_yards", 0.04%Q)] ++ [("rushing_yards", 0.1%Q)])%list.
Proof.
  intros stats.
  split; [vm_compute; reflexivity|].
  split; [right; left; reflexivity|].
  apply (exception_cols_never_score Sample.float_of_digits "Brady, Tom" false true
           Sample.quarterbacks 2014 stats "longest_rushing_run" 100%Q).
  - vm_compute; reflexivity.
  - right; left; reflexivity.
Defined.

Lemma AddPlayer_raises_unchanged_witness :
  AddPlayer Sample.float_of_digits "Prince" Sample.loaded
  = (Raise ValueError_unpack, Sample.loaded) /\
  Sample.loaded = Sample.loaded.
Proof.
  split; [reflexivity|].
  apply (AddPlayer_raises_unchanged Sample.float_of_digits "Prince"
           Sample.loaded Sample.loaded ValueError_unpack).
  reflexivity.
Defined.

Lemma AddPlayer_twice_witness :
  AddPlayer Sample.float_of_digits "Tom Brady" Sample.loaded
  = (Ok Sample.brady, Sample.with_brady) /\
  AddPlayer Sample.float_of_digits "Tom Brady" Sample.with_brady
  = (Ok Sample.brady,
     set_players (players Sample.loaded ++ [Some Sample.brady; Some Sample.brady])
                 Sample.loaded).
Proof.
  split; [reflexivity|].
  apply (AddPlayer_twice Sample.float_of_digits "Tom Brady" Sample.loaded
           Sample.with_brady Sample.brady).
  reflexivity.
Defined.

Lemma AddPlayer_unknown_name_witness :
  dl_list Sample.loaded = Bound (Some Sample.tables) /\
  split_maxsplit1 "John Smith" = ["John"; "Smith"] /\
  (forall df, In df Sample.tables ->
     name_check (title "Smith" ++ ", " ++ title "John") df = false) /\
  let player := {| name := "John Smith";
                   league_points := Some {| years := []; points := [] |} |} in
  AddPlayer Sample.float_of_digits "John Smith" Sample.loaded
  = (Ok player, set_players (players Sample.loaded ++ [Some player]) Sample.loaded).
Proof.
  assert (A : forall df, In df Sample.tables ->
                name_check (title "Smith" ++ ", " ++ title "John") df = false).
  { intros df I. simpl in I.
    repeat (destruct I as [<-|I]; [reflexivity|]). destruct I. }
  split; [reflexivity|]. split; [reflexivity|]. split; [exact A|].
  apply (AddPlayer_unknown_name Sample.float_of_digits "John Smith" "John" "Smith"
           Sample.loaded Sample.kickers (tl Sample.tables));
    [reflexivity | reflexivity | exact A].
Defined.

Lemma computed_with_brady : Forall computed (players Sample.with_brady).
Proof.
  constructor; [|constructor].
  exists Sample.brady, {| years := [2014%Z; 2015%Z];
                          points := [16.920%Q; 11.620%Q] |}.
  repeat split; repeat constructor.
Defined.

Lemma PlotPlayerPoints_adds_missing_witness :
  let fig :=
    {| lines :=
         [ mkLine [2015%Z] [4%Q] "Stephen Gostkowski";
           mkLine [2014%Z; 2015%Z] [16.920%Q; 11.620%Q] "Tom Brady";
           mkLine [2015%Z] [4%Q] "Stephen Gostkowski" ];
       grid := true; xlabel := "Year"; ylabel := "Points";
       plot_title := "Points Vs. Year in NFL"; legend_loc := "best";
       integer_ticks := true |} in
  let self' :=
    snd (PlotPlayerPoints Sample.float_of_digits (Some Sample2.names)
           Sample.with_brady) in
  Forall computed (players Sample.with_brady) /\
  PlotPlayerPoints Sample.float_of_digits (Some Sample2.names) Sample.with_brady
  = (Returns fig, self') /\
  exists stored added,
    mapM entry_name (players Sample.with_brady) = Ok stored /\
    map label (lines fig) = Sample2.names /\
    self' = set_players (players Sample.with_brady ++ map Some added)
                        Sample.with_brady /\
    map name added = names_to_add stored Sample2.names /\
    Forall computed (players self').
Proof.
  intros fig self'.
  split; [exact computed_with_brady|]. split; [reflexivity|].
  apply (PlotPlayerPoints_adds_missing Sample.float_of_digits Sample2.names
           Sample.with_brady self' fig computed_with_brady).
  reflexivity.
Defined.

Lemma computed_two_bradys : Forall computed (players Sample2.two_bradys).
Proof.
  constructor; [|constructor; [|constructor]].
  - exists Sample.brady, {| years := [2014%Z; 2015%Z];
                            points := [16.920%Q; 11.620%Q] |}.
    repeat split; repeat constructor.
  - do 2 eexists. split; [reflexivity|]. split; [reflexivity|].
    split; [reflexivity | repeat constructor].
Defined.

Lemma PlotPlayerPoints_default_witness :
  Forall computed (players Sample2.two_bradys) /\
  exists fig,
    PlotPlayerPoints Sample.float_of_digits None Sample2.two_bradys
    = (Returns fig, Sample2.two_bradys) /\
    Forall2 (fun entry line =>
               exists p q series,
                 entry = Some p /\
                 find (named (name p)) (players Sample2.two_bradys)
                 = Some (Some q) /\
                 league_points q = Some series /\
                 line = mkLine (years series) (points series) (name p))
            (players Sample2.two_bradys) (lines fig).
Proof.
  split; [exact computed_two_bradys|].
  apply (PlotPlayerPoints_default Sample.float_of_digits Sample2.two_bradys
           computed_two_bradys).
Defined.

Lemma LoadNflData_returns_witness :
  (forall path, In path (game_log_paths "Data") -> Sample.Data path <> None) /\
  exists dline oline k p qb rb wr,
    (Sample.Data (path_join "Data" DLINE_FILENAME),
     Sample.Data (path_join "Data" OLINE_FILENAME),
     Sample.Data (path_join "Data" KICKERS_FILENAME),
     Sample.Data (path_join "Data" PUNTERS_FILENAME),
     Sample.Data (path_join "Data" QUARTERBACKS_FILENAME),
     Sample.Data (path_join "Data" RUNNINGBACKS_FILENAME),
     Sample.Data (path_join "Data" WIDE_RECEIVERS_FILENAME))
    = (Some dline, Some oline, Some k, Some p, Some qb, Some rb, Some wr) /\
    LoadNflData Sample.Data "Data" Sample.with_brady
    = (Ok tt,
       mkFFBAnalyzer (players Sample.with_brady) (league_settings Sample.with_brady)
         (Some dline) (Some oline) (Some k) (Some p) (Some qb) (Some rb) (Some wr)
         (Bound (Some [k; p; qb; rb; wr; dline; oline]))).
Proof.
  assert (A : forall path, In path (game_log_paths "Data") ->
                Sample.Data path <> None).
  { intros path I. simpl in I.
    repeat (destruct I as [<-|I]; [discriminate|]). destruct I. }
  split; [exact A|].
  apply (LoadNflData_returns Sample.Data "Data" Sample.with_brady A).
Defined.

Lemma LoadNflData_raises_witness :
  let self' := snd (LoadNflData Sample2.Nothing "Data" Sample.with_brady) in
  LoadNflData Sample2.Nothing "Data" Sample.with_brady
  = (Raise (FileNotFoundError "Data/Game_Logs_Defensive_Lineman.csv"), self') /\
  dl_list self' = dl_list Sample.with_brady /\
  players self' = players Sample.with_brady /\
  league_settings self' = league_settings Sample.with_brady /\
  exists before path after,
    game_log_paths "Data" = (before ++ path :: after)%list /\
    (forall q, In q before -> Sample2.Nothing q <> None) /\
    Sample2.Nothing path = None /\
    FileNotFoundError "Data/Game_Logs_Defensive_Lineman.csv"
    = FileNotFoundError path.
Proof.
  intros self'. split; [reflexivity|].
  apply (LoadNflData_raises Sample2.Nothing "Data" Sample.with_brady self'
           (FileNotFoundError "Data/Game_Logs_Defensive_Lineman.csv")).
  reflexivity.
Defined.

Lemma reachable_well_formed_witness :
  reachable Sample.float_of_digits Sample.Data Sample2.two_bradys /\
  well_formed Sample2.two_bradys /\
  forall player_name,
    fst (AddPlayer Sample.float_of_digits player_name Sample2.two_bradys)
    <> Raise NameError_not_loaded /\
    fst (AddPlayer Sample.float_of_digits player_name Sample2.two_bradys)
    <> Raise (UnboundLocalError "df_single").
Proof.
  assert (R : reachable Sample.float_of_digits Sample.Data Sample2.two_bradys).
  { apply (reachable_after Sample.float_of_digits Sample.Data
             (Call_AddPlayer "Tom Brady")
             (snd (ChangeLeagueSettings Sample.float_of_digits
                     Sample.one_point_per_yard Sample.with_brady))).
    apply (reachable_after Sample.float_of_digits Sample.Data
             (Call_ChangeLeagueSettings Sample.one_point_per_yard)
             Sample.with_brady).
    apply (reachable_after Sample.float_of_digits Sample.Data
             (Call_AddPlayer "Tom Brady") Sample.loaded).
    apply (reachable_init Sample.float_of_digits Sample.Data (Some "Data")
             LeagueSettings_init Sample.loaded).
    reflexivity. }
  split; [exact R|].
  apply (reachable_well_formed Sample.float_of_digits Sample.Data
           Sample2.two_bradys R).
Defined.

(** * Names that are rejected *)

(** A name without a space has at most one name part, so the names the
    code rejects are names the specification calls invalid. *)
Lemma name_parts_from_no_space (word s : string) :
  ~ In " "%char (list_ascii_of_string s) ->
  name_parts_from word s
  = if String.eqb (word ++ s) "" then [] else [word ++ s].
Proof.
  revert word. induction s as [|c s IH]; intros word N; simpl.
  - replace (word ++ "") with word; [reflexivity|].
    clear. induction word as [|a w IHw]; simpl; congruence.
  - simpl in N. destruct (Ascii.eqb c " ") eqn:E.
    + apply Ascii.eqb_eq in E. subst c. exfalso. apply N. left. reflexivity.
    + rewrite IH by tauto.
      replace ((word ++ String c "") ++ s) with (word ++ String c s);
        [reflexivity|].
      clear. induction word as [|a w IHw]; simpl; congruence.
Qed.

Lemma name_parts_no_space (s : string) :
  ~ In " "%char (list_ascii_of_string s) ->
  (List.length (name_parts s) <= 1)%nat.
Proof.
  intros N. unfold name_parts. rewrite (name_parts_from_no_space "" s N).
  simpl. destruct (String.eqb s ""); simpl; lia.
Qed.

(** C8, as the code has it: [CalculatePlayerPoints] fails with the
    [ValueError] of the unpacking [first_name, last_name = ...] exactly for
    the names that hold no space, whatever the tables, the settings and the
    flags; a name with a space is cut at its first space and never fails
    this way, whatever its two parts are. *)
Theorem CalculatePlayerPoints_invalid_name_no_space
    (float_of_str : string -> option Q) (self : PlayerProfile)
    (df_list : list DataFrame) (settings : LeagueSettings)
    (include_post_season remove_week17 : bool) :
  CalculatePlayerPoints float_of_str self df_list settings
                        include_post_season remove_week17
  = Raise ValueError_unpack
  <-> ~ In " "%char (list_ascii_of_string (name self)).
Proof.
  split.
  - intros C I.
    destruct (split_maxsplit1_cases (name self)) as [(a & b & _ & S)|[N _]];
      [|apply cut_at_space_None in N; exact (N I)].
    unfold CalculatePlayerPoints in C. rewrite S in C.
    cbv beta iota delta [unpack2 bind] in C.
    destruct (for_df_single _ df_list None) as [df|]; [|discriminate].
    destruct (for_year _ _ _ _ _ _) as [pts|e] eqn:Y; [discriminate|].
    injection C as ->.
    apply for_year_Raise in Y. destruct Y as (y & _ & Y).
    apply player_year_stats_Raise in Y. destruct Y as [Y _]. discriminate.
  - intros N. apply cut_at_space_None in N.
    unfold CalculatePlayerPoints, split_maxsplit1. rewrite N. reflexivity.
Qed.

(** C8, names that are no pair of a first and a last name and are
    accepted all the same: "John Paul Smith" has three name parts and
    " Prince" has one, yet both hold a space, are cut at it, and
    [CalculatePlayerPoints] returns a profile (with an empty series, no
    sample table holding them) instead of failing. *)
Lemma CalculatePlayerPoints_accepts_other_names :
  name_parts "John Paul Smith" = ["John"; "Paul"; "Smith"] /\
  List.length (name_parts "John Paul Smith") <> 2%nat /\
  split_maxsplit1 "John Paul Smith" = ["John"; "Paul Smith"] /\
  CalculatePlayerPoints Sample.float_of_digits
    (PlayerProfile_init "John Paul Smith") Sample.tables LeagueSettings_init
    false true
  = Ok {| name := "John Paul Smith";
          league_points := Some {| years := []; points := [] |} |} /\
  name_parts " Prince" = ["Prince"] /\
  List.length (name_parts " Prince") <> 2%nat /\
  split_maxsplit1 " Prince" = [""; "Prince"] /\
  CalculatePlayerPoints Sample.float_of_digits
    (PlayerProfile_init " Prince") Sample.tables LeagueSettings_init false true
  = Ok {| name := " Prince";
          league_points := Some {| years := []; points := [] |} |} /\
  forall e,
    CalculatePlayerPoints Sample.float_of_digits
      (PlayerProfile_init "John Paul Smith") Sample.tables LeagueSettings_init
      false true <> Raise e.
Proof.
  assert (E : CalculatePlayerPoints Sample.float_of_digits
                (PlayerProfile_init "John Paul Smith") Sample.tables
                LeagueSettings_init false true
              = Ok {| name := "John Paul Smith";
                      league_points := Some {| years := []; points := [] |} |})
    by reflexivity.
  split; [reflexivity|]. split; [simpl; discriminate|].
  split; [reflexivity|]. split; [exact E|].
  split; [reflexivity|]. split; [simpl; discriminate|].
  split; [reflexivity|]. split; [reflexivity|].
  intros e. rewrite E. discriminate.
Qed.

Lemma CalculatePlayerPoints_invalid_name_no_space_witness :
  ~ In " "%char (list_ascii_of_string (name (PlayerProfile_init "Prince"))) /\
  CalculatePlayerPoints Sample.float_of_digits (PlayerProfile_init "Prince")
    Sample.tables LeagueSettings_init false true
  = Raise ValueError_unpack.
Proof.
  assert (N : ~ In " "%char
                (list_ascii_of_string (name (PlayerProfile_init "Prince")))).
  { simpl. intros H.
    repeat (destruct H as [H|H]; [discriminate H|]). exact H. }
  split; [exact N|].
  apply (proj2 (CalculatePlayerPoints_invalid_name_no_space
                  Sample.float_of_digits (PlayerProfile_init "Prince")
                  Sample.tables LeagueSettings_init false true)).
  exact N.
Defined.
